(** * Session-and-view controller of the task manager front end

    A shallow embedding of [src/frontend/app.js]: the bearer token, the
    [localStorage] entry that persists it, the two panels, the rendered task
    list, and the five event handlers with the initialisation code.

    The handlers are asynchronous; each one is modelled as a function of the
    outcomes of the [fetch] calls it awaits, run to completion.  A handler
    body is written in a small state-and-exception monad in which, as in
    JavaScript, the mutations made before a [throw] survive it. *)

From Stdlib Require Import String Ascii List Bool ZArith.
Import ListNotations.
Local Open Scope string_scope.
Local Open Scope Z_scope.

Set Warnings "-register-all".

(** ** JavaScript values coming out of [JSON.parse] *)

(** The values the program handles: [null], [undefined] (the result of
    reading a missing property), and what [response.json()] can produce.
    A number is carried as the text [Number::toString] gives for it, since
    the program only ever converts numbers to strings or tests them for
    truthiness.  An object is the list of its own properties, looked up
    from the front.  Strings hold the UTF-8 bytes of the text. *)
Inductive jsval : Type :=
| JUndefined
| JNull
| JBool (b : bool)
| JNum (repr : string)
| JStr (s : string)
| JArr (items : list jsval)
| JObj (props : list (string * jsval)).

Inductive js_error : Type :=
| NetworkError   (* fetch rejected *)
| SyntaxError    (* response.json() on a malformed body *)
| TypeError.

Fixpoint own_prop (k : string) (props : list (string * jsval)) : option jsval :=
  match props with
  | [] => None
  | (k', v) :: rest => if String.eqb k k' then Some v else own_prop k rest
  end.

(** [v.k] for a property name [k] that no built-in prototype defines
    ([access_token], [title], [completed], [detail]): reading it off [null]
    or [undefined] throws, off an object it is the own property or
    [undefined], off any other value it is [undefined]. *)
Definition get_prop (v : jsval) (k : string) : option jsval :=
  match v with
  | JUndefined | JNull => None
  | JObj props =>
      match own_prop k props with
      | Some x => Some x
      | None => Some JUndefined
      end
  | _ => Some JUndefined
  end.

(** ToBoolean, as used by [if (token)], [!title] and [task.completed ? _ : _]. *)
Definition truthy (v : jsval) : bool :=
  match v with
  | JUndefined | JNull => false
  | JBool b => b
  | JNum repr => negb (String.eqb repr "0")
  | JStr s => negb (String.eqb s EmptyString)
  | JArr _ | JObj _ => true
  end.

(** ToString, as used by template literals, by [+] with a string operand and
    by [localStorage.setItem].  [None] stands for a thrown TypeError: a
    parsed object whose own [toString] property shadows the inherited method
    cannot be converted.  An array is joined with commas, [null] and
    [undefined] items giving the empty text. *)
Fixpoint to_string (v : jsval) : option string :=
  match v with
  | JUndefined => Some "undefined"
  | JNull => Some "null"
  | JBool true => Some "true"
  | JBool false => Some "false"
  | JNum repr => Some repr
  | JStr s => Some s
  | JArr items =>
      (fix join (l : list jsval) : option string :=
         match l with
         | [] => Some EmptyString
         | x :: rest =>
             let item :=
               match x with
               | JUndefined | JNull => Some EmptyString
               | _ => to_string x
               end in
             match item with
             | None => None
             | Some sx =>
                 match rest with
                 | [] => Some sx
                 | _ :: _ =>
                     match join rest with
                     | None => None
                     | Some sr => Some (sx ++ "," ++ sr)
                     end
                 end
             end
         end) items
  | JObj props =>
      match own_prop "toString" props with
      | Some _ => None
      | None => Some "[object Object]"
      end
  end.

(** ** The network *)

Inductive req_body : Type :=
| NoBody
| JsonBody (v : jsval)                       (* JSON.stringify(v) *)
| FormBody (fields : list (string * string)) (* URLSearchParams *).

Record request : Type := mkRequest {
  req_method : string;
  req_url : string;
  req_headers : list (string * string);
  req_body_of : req_body
}.

(** A response: its status and what [response.json()] resolves to, [None]
    when the body is not JSON. *)
Record response : Type := mkResponse {
  status : Z;
  json_body : option jsval
}.

Inductive fetch_result : Type :=
| Rejected
| Resolved (resp : response).

(** [response.ok] *)
Definition ok (resp : response) : bool :=
  (200 <=? status resp) && (status resp <=? 299).

Definition AUTH_API_URL : string := "/auth".
Definition TASKS_API_URL : string := "/api".

(** ** The page *)

Record state : Type := mkState {
  token : jsval;                    (* let token *)
  localStorage : option string;     (* localStorage entry 'token' *)
  authSection_hidden : bool;        (* 'hidden' in authSection.classList *)
  tasksSection_hidden : bool;       (* 'hidden' in tasksSection.classList *)
  authMsg : string;                 (* authMsg.textContent *)
  tasksList : list string;          (* text of the children of tasksList *)
  username : string;                (* value of #username *)
  password : string;                (* value of #password *)
  task_title : string;              (* value of #task-title *)
  console : list (string * option js_error);  (* console.error calls, oldest first *)
  fetched : list request            (* fetch calls, oldest first *)
}.

Definition set_token (v : jsval) (s : state) : state :=
  mkState v (localStorage s) (authSection_hidden s) (tasksSection_hidden s)
    (authMsg s) (tasksList s) (username s) (password s) (task_title s)
    (console s) (fetched s).

Definition set_localStorage (v : option string) (s : state) : state :=
  mkState (token s) v (authSection_hidden s) (tasksSection_hidden s)
    (authMsg s) (tasksList s) (username s) (password s) (task_title s)
    (console s) (fetched s).

Definition set_authSection_hidden (b : bool) (s : state) : state :=
  mkState (token s) (localStorage s) b (tasksSection_hidden s)
    (authMsg s) (tasksList s) (username s) (password s) (task_title s)
    (console s) (fetched s).

Definition set_tasksSection_hidden (b : bool) (s : state) : state :=
  mkState (token s) (localStorage s) (authSection_hidden s) b
    (authMsg s) (tasksList s) (username s) (password s) (task_title s)
    (console s) (fetched s).

Definition set_authMsg (m : string) (s : state) : state :=
  mkState (token s) (localStorage s) (authSection_hidden s) (tasksSection_hidden s)
    m (tasksList s) (username s) (password s) (task_title s)
    (console s) (fetched s).

Definition set_tasksList (l : list string) (s : state) : state :=
  mkState (token s) (localStorage s) (authSection_hidden s) (tasksSection_hidden s)
    (authMsg s) l (username s) (password s) (task_title s)
    (console s) (fetched s).

Definition set_username (u : string) (s : state) : state :=
  mkState (token s) (localStorage s) (authSection_hidden s) (tasksSection_hidden s)
    (authMsg s) (tasksList s) u (password s) (task_title s)
    (console s) (fetched s).

Definition set_password (p : string) (s : state) : state :=
  mkState (token s) (localStorage s) (authSection_hidden s) (tasksSection_hidden s)
    (authMsg s) (tasksList s) (username s) p (task_title s)
    (console s) (fetched s).

Definition set_task_title (t : string) (s : state) : state :=
  mkState (token s) (localStorage s) (authSection_hidden s) (tasksSection_hidden s)
    (authMsg s) (tasksList s) (username s) (password s) t
    (console s) (fetched s).

Definition set_console (c : list (string * option js_error)) (s : state) : state :=
  mkState (token s) (localStorage s) (authSection_hidden s) (tasksSection_hidden s)
    (authMsg s) (tasksList s) (username s) (password s) (task_title s)
    c (fetched s).

Definition set_fetched (f : list request) (s : state) : state :=
  mkState (token s) (localStorage s) (authSection_hidden s) (tasksSection_hidden s)
    (authMsg s) (tasksList s) (username s) (password s) (task_title s)
    (console s) f.

(** ** Handler bodies: state that survives exceptions *)

Inductive outcome (A : Type) : Type :=
| Ok (a : A)
| Throw (e : js_error).
Arguments Ok {A} a.
Arguments Throw {A} e.

Definition M (A : Type) : Type := state -> outcome A * state.

Definition ret {A} (a : A) : M A := fun s => (Ok a, s).

Definition bind {A B} (m : M A) (k : A -> M B) : M B :=
  fun s =>
    match m s with
    | (Ok a, s') => k a s'
    | (Throw e, s') => (Throw e, s')
    end.

Definition throw {A} (e : js_error) : M A := fun s => (Throw e, s).

Definition try_catch {A} (m : M A) (handler : js_error -> M A) : M A :=
  fun s =>
    match m s with
    | (Ok a, s') => (Ok a, s')
    | (Throw e, s') => handler e s'
    end.

Definition read {A} (f : state -> A) : M A := fun s => (Ok (f s), s).

Definition modify (f : state -> state) : M unit := fun s => (Ok tt, f s).

(** A conversion or property read that throws a TypeError when undefined. *)
Definition or_type_error {A} (o : option A) : M A :=
  match o with
  | Some a => ret a
  | None => throw TypeError
  end.

(** The state a handler leaves behind. *)
Definition exec {A} (m : M A) (s : state) : state := snd (m s).

Declare Scope js_scope.
Delimit Scope js_scope with js.
Notation "x <- m ;; k" := (bind m (fun x => k))
  (at level 61, m at next level, right associativity) : js_scope.
Notation "m ;;; k" := (bind m (fun _ => k))
  (at level 61, right associativity) : js_scope.
Local Open Scope js_scope.

(** [await fetch(url, init)]: the call is recorded, then the promise settles
    the way the environment decides. *)
Definition fetch (rq : request) (r : fetch_result) : M response :=
  modify (fun s => set_fetched (fetched s ++ [rq]) s) ;;;
  match r with
  | Rejected => throw NetworkError
  | Resolved resp => ret resp
  end.

(** [await response.json()] *)
Definition json (resp : response) : M jsval :=
  match json_body resp with
  | Some v => ret v
  | None => throw SyntaxError
  end.

Definition console_error (msg : string) (e : option js_error) : M unit :=
  modify (fun s => set_console (console s ++ [(msg, e)]) s).

(** ** The program *)

(** [function showAuth()] *)
Definition showAuth : M unit :=
  modify (set_authSection_hidden false) ;;;
  modify (set_tasksSection_hidden true) ;;;
  modify (set_token JNull) ;;;
  modify (set_localStorage None).

(** The body of [tasks.forEach(task => ...)] for one task: a new [li] whose
    text is [task.title + (task.completed ? ' (Terminée)' : '')], appended
    to the list. *)
Definition append_task (task : jsval) : M unit :=
  title <- or_type_error (get_prop task "title") ;;
  completed <- or_type_error (get_prop task "completed") ;;
  text <- or_type_error (to_string title) ;;
  let li := text ++ (if truthy completed then " (Terminée)" else EmptyString) in
  modify (fun s => set_tasksList (tasksList s ++ [li]) s).

Fixpoint forEach (items : list jsval) (f : jsval -> M unit) : M unit :=
  match items with
  | [] => ret tt
  | x :: rest => f x ;;; forEach rest f
  end.

(** [tasks.forEach(...)] on whatever the body parsed to: only an array has
    the method. *)
Definition tasks_forEach (tasks : jsval) (f : jsval -> M unit) : M unit :=
  match tasks with
  | JArr items => forEach items f
  | _ => throw TypeError
  end.

(** [async function loadTasks()], given how its one [fetch] settles. *)
Definition loadTasks (r : fetch_result) : M unit :=
  tok <- read token ;;
  if negb (truthy tok) then ret tt else
  try_catch
    (bearer <- or_type_error (to_string tok) ;;
     resp <- fetch (mkRequest "GET" (TASKS_API_URL ++ "/tasks")
                      [("Authorization", "Bearer " ++ bearer)] NoBody) r ;;
     if status resp =? 401 then showAuth else
     tasks <- json resp ;;
     modify (set_tasksList []) ;;;
     tasks_forEach tasks append_task)
    (fun e => console_error "Erreur chargement tâches:" (Some e)).

(** [function showTasks()]; the call to [loadTasks] is followed to its end. *)
Definition showTasks (r : fetch_result) : M unit :=
  modify (set_authSection_hidden true) ;;;
  modify (set_tasksSection_hidden false) ;;;
  loadTasks r.

(** [registerBtn.onclick] *)
Definition registerBtn_onclick (r : fetch_result) : M unit :=
  usr <- read username ;;
  pwd <- read password ;;
  try_catch
    (resp <- fetch (mkRequest "POST" (AUTH_API_URL ++ "/register")
                      [("Content-Type", "application/json")]
                      (JsonBody (JObj [("username", JStr usr); ("password", JStr pwd)]))) r ;;
     if status resp =? 201 then
       modify (set_authMsg "Inscription réussie ! Connectez-vous.")
     else
       data <- json resp ;;
       detail <- or_type_error (get_prop data "detail") ;;
       text <- or_type_error (to_string detail) ;;
       modify (set_authMsg ("Erreur: " ++ text)))
    (fun _ => modify (set_authMsg "Erreur réseau.")).

(** [loginBtn.onclick], given how the login request settles and how the
    request of the [loadTasks] it may start settles. *)
Definition loginBtn_onclick (r rl : fetch_result) : M unit :=
  usr <- read username ;;
  pwd <- read password ;;
  modify (set_authMsg EmptyString) ;;;
  let formData := [("username", usr); ("password", pwd)] in
  try_catch
    (resp <- fetch (mkRequest "POST" (AUTH_API_URL ++ "/login")
                      [("Content-Type", "application/x-www-form-urlencoded")]
                      (FormBody formData)) r ;;
     if ok resp then
       data <- json resp ;;
       access_token <- or_type_error (get_prop data "access_token") ;;
       modify (set_token access_token) ;;;
       stored <- or_type_error (to_string access_token) ;;
       modify (set_localStorage (Some stored)) ;;;
       showTasks rl
     else
       modify (set_authMsg "Échec de la connexion."))
    (fun _ => modify (set_authMsg "Erreur réseau.")).

(** [logoutBtn.onclick] *)
Definition logoutBtn_onclick : M unit := showAuth.

(** [addTaskBtn.onclick], given how the POST settles and how the request of
    the [loadTasks] it may start settles. *)
Definition addTaskBtn_onclick (r rl : fetch_result) : M unit :=
  tok <- read token ;;
  if negb (truthy tok) then ret tt else
  title <- read task_title ;;
  if negb (truthy (JStr title)) then ret tt else
  try_catch
    (bearer <- or_type_error (to_string tok) ;;
     resp <- fetch (mkRequest "POST" (TASKS_API_URL ++ "/tasks")
                      [("Content-Type", "application/json");
                       ("Authorization", "Bearer " ++ bearer)]
                      (JsonBody (JObj [("title", JStr title)]))) r ;;
     if status resp =? 201 then
       modify (set_task_title EmptyString) ;;;
       loadTasks rl
     else
       console_error "Erreur ajout tâche" None)
    (fun e => console_error "Erreur réseau ajout tâche:" (Some e)).

(** [let token = localStorage.getItem('token')], run when the script loads. *)
Definition read_storage : M unit :=
  modify (fun s => set_token (match localStorage s with
                              | Some t => JStr t
                              | None => JNull
                              end) s).

(** The script from top to bottom: the token is read from storage, the
    handlers are installed, then the panel is chosen. *)
Definition initialisation (rl : fetch_result) : M unit :=
  read_storage ;;;
  tok <- read token ;;
  if truthy tok then showTasks rl else showAuth.

(** ** Vocabulary of the specification *)

Inductive View : Type := AuthView | TasksView.

(** The active view, when exactly one panel is visible. *)
Definition view (s : state) : option View :=
  match authSection_hidden s, tasksSection_hidden s with
  | false, true => Some AuthView
  | true, false => Some TasksView
  | _, _ => None
  end.

(** What a user can observe of the page: everything but the record of the
    requests that were sent. *)
Definition observable (s : state) :=
  (token s, localStorage s, authSection_hidden s, tasksSection_hidden s,
   authMsg s, tasksList s, (username s, password s, task_title s), console s).

(** The page itself (session, panels, message, list and inputs) is the same
    in [s'] as in [s]; the console and the request record may differ. *)
Definition same_page (s s' : state) : Prop :=
  token s' = token s /\
  localStorage s' = localStorage s /\
  authSection_hidden s' = authSection_hidden s /\
  tasksSection_hidden s' = tasksSection_hidden s /\
  authMsg s' = authMsg s /\
  tasksList s' = tasksList s /\
  username s' = username s /\
  password s' = password s /\
  task_title s' = task_title s.

(** The requests of the two task handlers. *)
Definition list_request (bearer : string) : request :=
  mkRequest "GET" "/api/tasks" [("Authorization", "Bearer " ++ bearer)] NoBody.

Definition create_request (bearer title : string) : request :=
  mkRequest "POST" "/api/tasks"
    [("Content-Type", "application/json"); ("Authorization", "Bearer " ++ bearer)]
    (JsonBody (JObj [("title", JStr title)])).

Definition login_request (usr pwd : string) : request :=
  mkRequest "POST" "/auth/login"
    [("Content-Type", "application/x-www-form-urlencoded")]
    (FormBody [("username", usr); ("password", pwd)]).

Definition sent (rq : request) (s : state) : state :=
  set_fetched (fetched s ++ [rq]) s.

Definition logged (msg : string) (e : option js_error) (s : state) : state :=
  set_console (console s ++ [(msg, e)]) s.

(** Example pages. *)
Definition blank_page : state :=
  mkState JNull None false true EmptyString [] EmptyString EmptyString EmptyString [] [].

Definition alice_page : state :=
  mkState (JStr "tok1") (Some "tok1") true false EmptyString ["Buy milk"]
    "alice" "x" "Walk dog" [] [].

(** ** Further vocabulary: rendering, login, invariant *)

(** A title that is empty after trimming, in the words of the specification:
    every character is white space (tab, line feed, vertical tab, form feed,
    carriage return or space). *)
Definition is_space (c : ascii) : bool :=
  match nat_of_ascii c with
  | 9%nat | 10%nat | 11%nat | 12%nat | 13%nat | 32%nat => true
  | _ => false
  end.

Fixpoint whitespace_only (t : string) : bool :=
  match t with
  | EmptyString => true
  | String c rest => is_space c && whitespace_only rest
  end.

Definition spaces_page : state := set_task_title " " alice_page.

(** The text of one list item, as a pure function of the task; [None] when
    building it throws. *)
Definition task_text (task : jsval) : option string :=
  match get_prop task "title", get_prop task "completed" with
  | Some title, Some completed =>
      match to_string title with
      | Some text =>
          Some (text ++ (if truthy completed then " (Terminée)" else EmptyString))
      | None => None
      end
  | _, _ => None
  end.

(** The items rendered from an array, up to the first task that throws. *)
Fixpoint rendered (items : list jsval) : list string * option js_error :=
  match items with
  | [] => ([], None)
  | x :: rest =>
      match task_text x with
      | None => ([], Some TypeError)
      | Some li => let (lis, e) := rendered rest in (li :: lis, e)
      end
  end.

(** The page after the response body has been handed to the renderer. *)
Definition after_render (tasks : jsval) (s : state) : state :=
  match tasks with
  | JArr items =>
      let s2 := set_tasksList (fst (rendered items)) s in
      match snd (rendered items) with
      | None => s2
      | Some e => logged "Erreur chargement tâches:" (Some e) s2
      end
  | _ => logged "Erreur chargement tâches:" (Some TypeError) (set_tasksList [] s)
  end.

(** The Task entity of the specification, and how it is displayed in the
    specification's words: the title, followed by the completion marker when
    the task is completed. *)
Record Task : Type := mkTask {
  title : string;
  completed : bool
}.

Definition display (t : Task) : string :=
  title t ++ (if completed t then " (Terminée)" else EmptyString).

(** The parsed value [v] carries the task [t]: its [title] is that string and
    its [completed] is that boolean; it may have other properties. *)
Definition is_task (v : jsval) (t : Task) : Prop :=
  get_prop v "title" = Some (JStr (title t)) /\
  get_prop v "completed" = Some (JBool (completed t)).

Definition load_error : string := "Erreur chargement tâches:".

Definition two_tasks : list jsval :=
  [JObj [("id", JNum "1"); ("title", JStr "Buy milk"); ("completed", JBool false)];
   JObj [("id", JNum "2"); ("title", JStr "Walk dog"); ("completed", JBool true)]].

(** The parsed value [v] has no property [k]: reading [v.k] gives
    [undefined].  This holds of an object without the property, and of a
    number, a string, a boolean or an array; not of [null], on which the read
    throws. *)
Definition lacks_prop (v : jsval) (k : string) : Prop :=
  get_prop v k = Some JUndefined.

(** The page when [showTasks] hands over to [loadTasks]. *)
Definition tasks_shown (s : state) : state :=
  set_tasksSection_hidden false (set_authSection_hidden true s).

(** The page after a 2xx answer whose body gave [v] as access token and [v]
    was written to storage as [stored]. *)
Definition logged_in (v : jsval) (stored : string) (s : state) : state :=
  tasks_shown (set_localStorage (Some stored) (set_token v s)).

Definition network_error : string := "Erreur réseau.".
Definition login_failed : string := "Échec de la connexion.".

Definition alice_form : state := set_password "x" (set_username "alice" blank_page).

Definition token_body : jsval :=
  JObj [("access_token", JStr "tok1"); ("token_type", JStr "bearer")].

Definition empty_token_page : state :=
  mkState JUndefined (Some EmptyString) false false EmptyString []
    EmptyString EmptyString EmptyString [] [].

(** A returning user: the page starts with a stored token and the list is
    loaded. *)
Definition returning_page : state :=
  exec (initialisation
          (Resolved (mkResponse 200
             (Some (JArr [JObj [("title", JStr "Buy milk");
                                ("completed", JBool false)]])))))
       (set_localStorage (Some "tok1") blank_page).

(** The part of the page the invariant speaks of. *)
Definition session_of (s : state) : jsval * option string * bool * bool :=
  (token s, localStorage s, authSection_hidden s, tasksSection_hidden s).

(** The invariant of the specification: the tasks panel is visible exactly
    when a token is present, and without a token the auth panel is shown and
    storage holds no token. *)
Definition invariant_on (x : jsval * option string * bool * bool) : Prop :=
  let '(tok, stored, auth_hidden, tasks_hidden) := x in
  (tasks_hidden = false <-> truthy tok = true) /\
  (truthy tok = false -> auth_hidden = false /\ stored = None).

Definition session_invariant (s : state) : Prop := invariant_on (session_of s).

(** What the user, with the network, can make the page do. *)
Inductive operation : Type :=
| OpRegister (r : fetch_result)
| OpLogin (r rl : fetch_result)
| OpLogout
| OpLoadTasks (r : fetch_result)
| OpAddTask (r rl : fetch_result)
| OpTypeUsername (u : string)
| OpTypePassword (p : string)
| OpTypeTitle (t : string).

Definition run (op : operation) : state -> state :=
  match op with
  | OpRegister r => exec (registerBtn_onclick r)
  | OpLogin r rl => exec (loginBtn_onclick r rl)
  | OpLogout => exec logoutBtn_onclick
  | OpLoadTasks r => exec (loadTasks r)
  | OpAddTask r rl => exec (addTaskBtn_onclick r rl)
  | OpTypeUsername u => set_username u
  | OpTypePassword p => set_password p
  | OpTypeTitle t => set_task_title t
  end.

(** The pages reached from a page load by completed operations taken from
    [allowed]. *)
Inductive reachable (allowed : operation -> Prop) : state -> Prop :=
| reachable_start (rl : fetch_result) (s0 : state) :
    reachable allowed (exec (initialisation rl) s0)
| reachable_step (op : operation) (s : state) :
    reachable allowed s -> allowed op -> reachable allowed (run op s).

Definition any_operation (op : operation) : Prop := True.

(** A login answer is sound when, if it is a 2xx whose body yields an access
    token, that token is truthy and can be written to storage. *)
Definition login_sound (r : fetch_result) : bool :=
  match r with
  | Rejected => true
  | Resolved resp =>
      if ok resp then
        match json_body resp with
        | None => true
        | Some data =>
            match get_prop data "access_token" with
            | None => true
            | Some v =>
                truthy v &&
                match to_string v with
                | Some _ => true
                | None => false
                end
            end
        end
      else true
  end.

Definition sound_operation (op : operation) : Prop :=
  match op with
  | OpLogin r _ => login_sound r = true
  | _ => True
  end.

(** ** Vocabulary for the remaining behaviour of the handlers *)

Definition register_request (usr pwd : string) : request :=
  mkRequest "POST" "/auth/register"
    [("Content-Type", "application/json")]
    (JsonBody (JObj [("username", JStr usr); ("password", JStr pwd)])).

Definition register_succeeded : string := "Inscription réussie ! Connectez-vous.".

(** The request settled with a response of status 401. *)
Definition is_401 (r : fetch_result) : bool :=
  match r with
  | Rejected => false
  | Resolved resp => status resp =? 401
  end.

(** The request settled with a response of status 201. *)
Definition is_201 (r : fetch_result) : bool :=
  match r with
  | Rejected => false
  | Resolved resp => status resp =? 201
  end.

(** The outcome an operation hands to the [loadTasks] it may start. *)
Definition load_outcome (op : operation) : option fetch_result :=
  match op with
  | OpLogin _ rl => Some rl
  | OpLoadTasks r => Some r
  | OpAddTask _ rl => Some rl
  | _ => None
  end.

(** What holds of the panels and of storage whatever the login answers are:
    exactly one panel is visible, and a stored entry exists only while the
    tasks panel is the visible one. *)
Definition panels_on (x : jsval * option string * bool * bool) : Prop :=
  let '(_, stored, auth_hidden, tasks_hidden) := x in
  auth_hidden = negb tasks_hidden /\
  (stored <> None -> tasks_hidden = false).

Definition panels_consistent (s : state) : Prop := panels_on (session_of s).

(** A page with a token that cannot be written into a header. *)
Definition opaque_token : jsval := JObj [("toString", JNum "1")].

Definition opaque_body : jsval := JObj [("access_token", opaque_token)].

Definition milk : jsval :=
  JObj [("title", JStr "Buy milk"); ("completed", JBool false)].

(** ** Basic facts *)

Lemma state_eta (s : state) :
  mkState (token s) (localStorage s) (authSection_hidden s) (tasksSection_hidden s)
    (authMsg s) (tasksList s) (username s) (password s) (task_title s)
    (console s) (fetched s) = s.
Proof. destruct s; reflexivity. Qed.

Lemma same_page_refl (s : state) : same_page s s.
Proof. repeat split. Qed.

Lemma showAuth_run (s : state) :
  showAuth s =
  (Ok tt, set_localStorage None (set_token JNull
            (set_tasksSection_hidden true (set_authSection_hidden false s)))).
Proof. reflexivity. Qed.

Lemma loadTasks_without_token (r : fetch_result) (s : state) :
  truthy (token s) = false -> loadTasks r s = (Ok tt, s).
Proof.
  intros H. unfold loadTasks, bind, read. cbn. rewrite H. reflexivity.
Qed.

(** With a token that converts to text, [loadTasks] sends its request and
    continues with the response. *)
Lemma loadTasks_401 (resp : response) (s : state) (bearer : string) :
  truthy (token s) = true ->
  to_string (token s) = Some bearer ->
  status resp = 401 ->
  loadTasks (Resolved resp) s = showAuth (sent (list_request bearer) s).
Proof.
  intros Ht Hb Hs. unfold loadTasks, bind, read, try_catch. cbn.
  rewrite Ht. cbn. rewrite Hb. cbn. rewrite Hs. reflexivity.
Qed.

(** A [try] whose [catch] block cannot throw completes normally. *)
Lemma try_catch_returns (m : M unit) (handler : js_error -> M unit) (s : state) :
  (forall e s1, exists s2, handler e s1 = (Ok tt, s2)) ->
  exists s', try_catch m handler s = (Ok tt, s').
Proof.
  intros H. unfold try_catch. destruct (m s) as [[[]|e] s1].
  - exists s1. reflexivity.
  - apply H.
Qed.

(** [loadTasks] catches whatever it throws: its promise always fulfils. *)
Lemma loadTasks_returns (r : fetch_result) (s : state) :
  exists s', loadTasks r s = (Ok tt, s').
Proof.
  unfold loadTasks, bind, read.
  destruct (negb (truthy (token s))).
  - exists s. reflexivity.
  - apply try_catch_returns. intros e s1. eexists. reflexivity.
Qed.

(** An enclosing [try] has nothing to catch from a call to [loadTasks]. *)
Ltac loadTasks_in_try rl :=
  match goal with
  | |- context [loadTasks rl ?s2] =>
      let s3 := fresh "s" in
      let E := fresh "E" in
      destruct (loadTasks_returns rl s2) as [s3 E]; rewrite E;
      symmetry; exact E
  end.

(** ** Logout *)

(** C7: from any state, Logout clears the token in memory and in storage and
    shows the auth panel alone; it sends no request, logs nothing, and leaves
    the message, the list and the inputs as they were. *)
Theorem logout_clears_session (s : state) :
  let s' := exec logoutBtn_onclick s in
  token s' = JNull /\
  localStorage s' = None /\
  view s' = Some AuthView /\
  fetched s' = fetched s /\
  console s' = console s /\
  authMsg s' = authMsg s /\
  tasksList s' = tasksList s /\
  task_title s' = task_title s.
Proof. cbn. repeat split. Qed.

(** C4: with a token present, a 401 answer to LoadTasks leaves exactly what
    Logout leaves, apart from the record of the request that was sent: the
    token is cleared in memory and in storage, the auth panel is shown, and
    the rendered list is untouched. *)
Theorem loadTasks_401_is_logout (resp : response) (s : state) (bearer : string) :
  truthy (token s) = true ->
  to_string (token s) = Some bearer ->
  status resp = 401 ->
  let s' := exec (loadTasks (Resolved resp)) s in
  observable s' = observable (exec logoutBtn_onclick s) /\
  fetched s' = (fetched s ++ [list_request bearer])%list /\
  token s' = JNull /\
  localStorage s' = None /\
  view s' = Some AuthView /\
  tasksList s' = tasksList s.
Proof.
  intros Ht Hb Hs. unfold exec.
  rewrite (loadTasks_401 resp s bearer Ht Hb Hs).
  cbn. repeat split.
Qed.

Lemma loadTasks_401_is_logout_witness :
  let s' := exec (loadTasks (Resolved (mkResponse 401 None))) alice_page in
  observable s' = observable (exec logoutBtn_onclick alice_page) /\
  fetched s' = (fetched alice_page ++ [list_request "tok1"])%list /\
  token s' = JNull /\
  localStorage s' = None /\
  view s' = Some AuthView /\
  tasksList s' = tasksList alice_page.
Proof.
  apply (loadTasks_401_is_logout (mkResponse 401 None) alice_page "tok1");
    reflexivity.
Defined.

(** ** LoadTasks *)

Lemma append_task_run (task : jsval) (s : state) :
  append_task task s =
  match task_text task with
  | Some li => (Ok tt, set_tasksList (tasksList s ++ [li]) s)
  | None => (Throw TypeError, s)
  end.
Proof.
  unfold append_task, task_text, bind, or_type_error.
  destruct (get_prop task "title") as [title|]; [|reflexivity].
  destruct (get_prop task "completed") as [completed|]; [|reflexivity].
  cbn. destruct (to_string title); reflexivity.
Qed.

(** The loop appends exactly the rendered items and throws where rendering
    stops. *)
Lemma forEach_append_task (items : list jsval) (s : state) :
  forEach items append_task s =
  (match snd (rendered items) with
   | None => Ok tt
   | Some e => Throw e
   end,
   set_tasksList (tasksList s ++ fst (rendered items)) s).
Proof.
  revert s. induction items as [|x rest IH]; intros s.
  - cbn. rewrite app_nil_r. unfold set_tasksList. rewrite state_eta. reflexivity.
  - cbn [forEach rendered]. unfold bind. rewrite append_task_run.
    destruct (task_text x) as [li|].
    + rewrite IH. destruct (rendered rest) as [lis e]. cbn.
      rewrite <- app_assoc. reflexivity.
    + cbn. rewrite app_nil_r. unfold set_tasksList. rewrite state_eta. reflexivity.
Qed.

(** [loadTasks] with a token present, case by case. *)
Lemma loadTasks_run (r : fetch_result) (s : state) :
  truthy (token s) = true ->
  loadTasks r s =
  (Ok tt,
   match to_string (token s) with
   | None => logged "Erreur chargement tâches:" (Some TypeError) s
   | Some bearer =>
       let s1 := sent (list_request bearer) s in
       match r with
       | Rejected => logged "Erreur chargement tâches:" (Some NetworkError) s1
       | Resolved resp =>
           if status resp =? 401 then exec showAuth s1
           else match json_body resp with
                | None => logged "Erreur chargement tâches:" (Some SyntaxError) s1
                | Some tasks => after_render tasks s1
                end
       end
   end).
Proof.
  intros Ht. unfold loadTasks, bind, read, try_catch. cbn -[forEach append_task].
  rewrite Ht. cbn -[forEach append_task].
  destruct (to_string (token s)) as [bearer|]; cbn -[forEach append_task];
    [|reflexivity].
  destruct r as [|resp]; cbn -[forEach append_task]; [reflexivity|].
  destruct (status resp =? 401); cbn -[forEach append_task]; [reflexivity|].
  unfold json.
  destruct (json_body resp) as [tasks|]; cbn -[forEach append_task]; [|reflexivity].
  destruct tasks; cbn -[forEach append_task]; try reflexivity.
  rewrite forEach_append_task.
  destruct (rendered items) as [lis [e|]]; reflexivity.
Qed.

Lemma task_text_display (v : jsval) (t : Task) :
  is_task v t -> task_text v = Some (display t).
Proof.
  intros [Ht Hc]. unfold task_text, display. rewrite Ht, Hc. reflexivity.
Qed.

Lemma rendered_display (items : list jsval) (tasks : list Task) :
  Forall2 is_task items tasks -> rendered items = (map display tasks, None).
Proof.
  induction 1 as [|v t items tasks Hv _ IH]; cbn.
  - reflexivity.
  - rewrite (task_text_display v t Hv), IH. reflexivity.
Qed.

(** C3, as the code has it.  With a token present, an error thrown before the
    body has been parsed (the request is rejected, or the body is not JSON)
    is logged and leaves the page, and so the rendered list, as it was.  A
    body that parses to something other than an array is logged too, but by
    then the list has been emptied. *)
Theorem loadTasks_error_outcomes (s : state) (bearer : string) :
  truthy (token s) = true ->
  to_string (token s) = Some bearer ->
  let s1 := sent (list_request bearer) s in
  (let s' := exec (loadTasks Rejected) s in
   s' = logged load_error (Some NetworkError) s1 /\ same_page s s') /\
  (forall resp,
     status resp <> 401 -> json_body resp = None ->
     let s' := exec (loadTasks (Resolved resp)) s in
     s' = logged load_error (Some SyntaxError) s1 /\ same_page s s') /\
  (forall resp tasks,
     status resp <> 401 -> json_body resp = Some tasks ->
     (forall items, tasks <> JArr items) ->
     let s' := exec (loadTasks (Resolved resp)) s in
     s' = logged load_error (Some TypeError) (set_tasksList [] s1) /\
     tasksList s' = []).
Proof.
  intros Ht Hb s1. unfold exec. split; [|split].
  - rewrite (loadTasks_run _ s Ht), Hb. cbn. repeat split.
  - intros resp Hs Hj. apply Z.eqb_neq in Hs.
    rewrite (loadTasks_run _ s Ht), Hb. cbn. rewrite Hs, Hj.
    repeat split.
  - intros resp tasks Hs Hj Hna. apply Z.eqb_neq in Hs.
    rewrite (loadTasks_run _ s Ht), Hb. cbn. rewrite Hs, Hj.
    destruct tasks; try (repeat split; fail).
    exfalso. exact (Hna items eq_refl).
Qed.

Lemma loadTasks_error_outcomes_witness :
  let s1 := sent (list_request "tok1") alice_page in
  exec (loadTasks Rejected) alice_page = logged load_error (Some NetworkError) s1 /\
  exec (loadTasks (Resolved (mkResponse 200 None))) alice_page =
    logged load_error (Some SyntaxError) s1 /\
  tasksList (exec (loadTasks (Resolved (mkResponse 500 (Some JNull)))) alice_page) = [].
Proof.
  destruct (loadTasks_error_outcomes alice_page "tok1" eq_refl eq_refl)
    as [[H1 _] [H2 H3]].
  split; [exact H1|]. split.
  - apply (H2 (mkResponse 200 None)); [discriminate | reflexivity].
  - apply (H3 (mkResponse 500 (Some JNull)) JNull);
      [discriminate | reflexivity | discriminate].
Defined.

(** C3 fails for a body that is not an array: a 500 whose body is the JSON
    object of an error report empties the list before the error is logged. *)
Lemma loadTasks_non_array_empties_list :
  let resp := mkResponse 500 (Some (JObj [("detail", JStr "Internal Server Error")])) in
  let s' := exec (loadTasks (Resolved resp)) alice_page in
  truthy (token alice_page) = true /\
  tasksList alice_page = ["Buy milk"] /\
  console s' = [(load_error, Some TypeError)] /\
  tasksList s' = [].
Proof. cbn. repeat split. Qed.

(** C6: with a token present, for a response other than 401 whose body is an
    array of tasks, LoadTasks leaves as the rendered list exactly the tasks'
    displays, in the order of the array, whatever was rendered before, and
    logs nothing. *)
Theorem loadTasks_renders (s : state) (bearer : string) (resp : response)
    (items : list jsval) (tasks : list Task) :
  truthy (token s) = true ->
  to_string (token s) = Some bearer ->
  status resp <> 401 ->
  json_body resp = Some (JArr items) ->
  Forall2 is_task items tasks ->
  let s' := exec (loadTasks (Resolved resp)) s in
  s' = set_tasksList (map display tasks) (sent (list_request bearer) s) /\
  tasksList s' = map display tasks /\
  console s' = console s.
Proof.
  intros Ht Hb Hs Hj Hi. apply Z.eqb_neq in Hs. unfold exec.
  rewrite (loadTasks_run _ s Ht), Hb. cbn. rewrite Hs, Hj.
  unfold after_render. rewrite (rendered_display items tasks Hi). cbn.
  repeat split.
Qed.

Lemma loadTasks_renders_witness :
  let s' := exec (loadTasks (Resolved (mkResponse 200 (Some (JArr two_tasks))))) alice_page in
  s' = set_tasksList ["Buy milk"; "Walk dog (Terminée)"]
         (sent (list_request "tok1") alice_page) /\
  tasksList s' = ["Buy milk"; "Walk dog (Terminée)"] /\
  console s' = console alice_page.
Proof.
  apply (loadTasks_renders alice_page "tok1"
           (mkResponse 200 (Some (JArr two_tasks))) two_tasks
           [mkTask "Buy milk" false; mkTask "Walk dog" true]);
    try reflexivity; try discriminate.
  repeat constructor.
Defined.

Lemma loadTasks_fetched (r : fetch_result) (s : state) (bearer : string) :
  truthy (token s) = true ->
  to_string (token s) = Some bearer ->
  fetched (exec (loadTasks r) s) = (fetched s ++ [list_request bearer])%list.
Proof.
  intros Ht Hb. unfold exec. rewrite (loadTasks_run r s Ht), Hb. cbn.
  destruct r as [|resp]; [reflexivity|].
  destruct (status resp =? 401); [reflexivity|].
  destruct (json_body resp) as [tasks|]; [|reflexivity].
  destruct tasks; try reflexivity.
  cbn. destruct (snd (rendered items)); reflexivity.
Qed.

(** LoadTasks never touches the message or the inputs. *)
Lemma loadTasks_frame (r : fetch_result) (s : state) :
  let s' := exec (loadTasks r) s in
  authMsg s' = authMsg s /\
  username s' = username s /\
  password s' = password s /\
  task_title s' = task_title s.
Proof.
  unfold exec. destruct (truthy (token s)) eqn:Ht.
  - rewrite (loadTasks_run r s Ht). cbn [snd].
    destruct (to_string (token s)) as [bearer|]; [|repeat split].
    destruct r as [|resp]; [repeat split|]. cbv zeta.
    destruct (status resp =? 401); [repeat split|].
    destruct (json_body resp) as [tasks|]; [|repeat split].
    destruct tasks; try (repeat split; fail).
    cbn [after_render]. destruct (snd (rendered items)); repeat split.
  - rewrite (loadTasks_without_token r s Ht). repeat split.
Qed.

(** ** AddTask *)

Lemma truthy_title (t : string) :
  t <> EmptyString -> truthy (JStr t) = true.
Proof.
  intros H. cbn. destruct (String.eqb_spec t EmptyString); [contradiction | reflexivity].
Qed.

Lemma addTask_empty_title (r rl : fetch_result) (s : state) :
  task_title s = EmptyString -> addTaskBtn_onclick r rl s = (Ok tt, s).
Proof.
  intros H. unfold addTaskBtn_onclick, bind, read. cbn.
  destruct (truthy (token s)); cbn; [rewrite H|]; reflexivity.
Qed.

Lemma addTask_without_token (r rl : fetch_result) (s : state) :
  truthy (token s) = false -> addTaskBtn_onclick r rl s = (Ok tt, s).
Proof.
  intros H. unfold addTaskBtn_onclick, bind, read. cbn. rewrite H. reflexivity.
Qed.

(** What the handler does once both guards are passed. *)
Lemma addTask_run (r rl : fetch_result) (s : state) :
  truthy (token s) = true ->
  task_title s <> EmptyString ->
  addTaskBtn_onclick r rl s =
  match to_string (token s) with
  | None => (Ok tt, logged "Erreur réseau ajout tâche:" (Some TypeError) s)
  | Some bearer =>
      let s1 := sent (create_request bearer (task_title s)) s in
      match r with
      | Rejected => (Ok tt, logged "Erreur réseau ajout tâche:" (Some NetworkError) s1)
      | Resolved resp =>
          if status resp =? 201
          then loadTasks rl (set_task_title EmptyString s1)
          else (Ok tt, logged "Erreur ajout tâche" None s1)
      end
  end.
Proof.
  intros Ht Hn. apply truthy_title in Hn.
  unfold addTaskBtn_onclick, bind, read, try_catch. cbn -[loadTasks truthy].
  rewrite Ht. cbn -[loadTasks truthy]. rewrite Hn. cbn -[loadTasks].
  destruct (to_string (token s)) as [bearer|]; cbn -[loadTasks]; [|reflexivity].
  destruct r as [|resp]; cbn -[loadTasks]; [reflexivity|].
  destruct (status resp =? 201); cbn -[loadTasks]; [|reflexivity].
  loadTasks_in_try rl.
Qed.

(** C2, as the code has it: with an empty title AddTask does nothing at all,
    so it sends no request and leaves the rendered list, the token and the
    view as they were.  The title is tested as typed, not trimmed. *)
Theorem addTask_empty_title_noop (r rl : fetch_result) (s : state) :
  task_title s = EmptyString ->
  exec (addTaskBtn_onclick r rl) s = s.
Proof.
  intros H. unfold exec. rewrite (addTask_empty_title r rl s H). reflexivity.
Qed.

Lemma addTask_empty_title_noop_witness :
  let s := set_task_title EmptyString alice_page in
  exec (addTaskBtn_onclick Rejected Rejected) s = s.
Proof.
  apply (addTask_empty_title_noop Rejected Rejected
           (set_task_title EmptyString alice_page)).
  reflexivity.
Defined.

(** C2 fails for a title made of one space: with a token present the task
    is posted, and on a 201 the list is loaded again and replaced. *)
Lemma addTask_whitespace_title_sends :
  whitespace_only (task_title spaces_page) = true /\
  let s' := exec (addTaskBtn_onclick
                    (Resolved (mkResponse 201 None))
                    (Resolved (mkResponse 200 (Some (JArr [])))))
                 spaces_page in
  fetched spaces_page = [] /\
  fetched s' = [create_request "tok1" " "; list_request "tok1"] /\
  tasksList spaces_page = ["Buy milk"] /\
  tasksList s' = [].
Proof. cbn. repeat split. Qed.

(** C9: with a token present and a non-empty title, a 201 clears the title
    input and runs LoadTasks on the page so obtained; any other status, a
    rejected request, or a token that cannot be written into the header, only
    adds a line to the console: the token, the storage, the panels, the
    message, the list and the title input keep their values. *)
Theorem addTask_outcomes (r rl : fetch_result) (s : state) :
  truthy (token s) = true ->
  task_title s <> EmptyString ->
  let s' := exec (addTaskBtn_onclick r rl) s in
  match to_string (token s), r with
  | Some bearer, Resolved resp =>
      let s1 := sent (create_request bearer (task_title s)) s in
      if status resp =? 201 then
        s' = exec (loadTasks rl) (set_task_title EmptyString s1) /\
        task_title s' = EmptyString
      else
        s' = logged "Erreur ajout tâche" None s1 /\ same_page s s'
  | Some bearer, Rejected =>
      s' = logged "Erreur réseau ajout tâche:" (Some NetworkError)
             (sent (create_request bearer (task_title s)) s) /\
      same_page s s'
  | None, _ =>
      s' = logged "Erreur réseau ajout tâche:" (Some TypeError) s /\
      same_page s s'
  end.
Proof.
  intros Ht Hn. unfold exec. rewrite (addTask_run r rl s Ht Hn).
  destruct (to_string (token s)) as [bearer|].
  - destruct r as [|resp]; cbn -[loadTasks].
    + repeat split.
    + destruct (status resp =? 201); cbn -[loadTasks]; repeat split.
      apply (loadTasks_frame rl).
  - destruct r; cbn; repeat split.
Qed.

Lemma addTask_outcomes_witness :
  let s1 := sent (create_request "tok1" "Walk dog") alice_page in
  (exec (addTaskBtn_onclick (Resolved (mkResponse 201 None)) Rejected) alice_page =
   exec (loadTasks Rejected) (set_task_title EmptyString s1) /\
   task_title (exec (addTaskBtn_onclick (Resolved (mkResponse 201 None)) Rejected)
                 alice_page) = EmptyString) /\
  (exec (addTaskBtn_onclick (Resolved (mkResponse 500 None)) Rejected) alice_page =
   logged "Erreur ajout tâche" None s1 /\
   same_page alice_page
     (exec (addTaskBtn_onclick (Resolved (mkResponse 500 None)) Rejected) alice_page)).
Proof.
  assert (Hn : task_title alice_page <> EmptyString) by discriminate.
  split.
  - exact (addTask_outcomes (Resolved (mkResponse 201 None)) Rejected alice_page
             eq_refl Hn).
  - exact (addTask_outcomes (Resolved (mkResponse 500 None)) Rejected alice_page
             eq_refl Hn).
Defined.

(** ** Login *)

(** [loginBtn.onclick], case by case. *)
Lemma login_run (r rl : fetch_result) (s : state) :
  loginBtn_onclick r rl s =
  let s1 := sent (login_request (username s) (password s))
              (set_authMsg EmptyString s) in
  match r with
  | Rejected => (Ok tt, set_authMsg network_error s1)
  | Resolved resp =>
      if ok resp then
        match json_body resp with
        | None => (Ok tt, set_authMsg network_error s1)
        | Some data =>
            match get_prop data "access_token" with
            | None => (Ok tt, set_authMsg network_error s1)
            | Some v =>
                match to_string v with
                | None => (Ok tt, set_authMsg network_error (set_token v s1))
                | Some stored => loadTasks rl (logged_in v stored s1)
                end
            end
        end
      else (Ok tt, set_authMsg login_failed s1)
  end.
Proof.
  unfold loginBtn_onclick, showTasks, bind, read, try_catch, json.
  cbn -[loadTasks ok].
  destruct r as [|resp]; cbn -[loadTasks ok]; [reflexivity|].
  destruct (ok resp); cbn -[loadTasks]; [|reflexivity].
  destruct (json_body resp) as [data|]; cbn -[loadTasks]; [|reflexivity].
  destruct (get_prop data "access_token") as [v|]; cbn -[loadTasks]; [|reflexivity].
  destruct (to_string v) as [stored|]; cbn -[loadTasks]; [|reflexivity].
  loadTasks_in_try rl.
Qed.

(** C5: on a 2xx answer whose body gives an access token, Login keeps it in
    memory, writes it to storage, shows the tasks panel alone and runs
    LoadTasks on the page so obtained; on a non-2xx answer it displays the
    failure message and leaves token, storage and panels as they were; when
    the request is rejected it displays the network-error message. *)
Theorem login_outcomes (rl : fetch_result) (s : state) :
  let s1 := sent (login_request (username s) (password s))
              (set_authMsg EmptyString s) in
  (forall resp data v stored,
     ok resp = true ->
     json_body resp = Some data ->
     get_prop data "access_token" = Some v ->
     to_string v = Some stored ->
     let s2 := logged_in v stored s1 in
     exec (loginBtn_onclick (Resolved resp) rl) s = exec (loadTasks rl) s2 /\
     token s2 = v /\
     localStorage s2 = Some stored /\
     view s2 = Some TasksView) /\
  (forall resp,
     ok resp = false ->
     let s' := exec (loginBtn_onclick (Resolved resp) rl) s in
     s' = set_authMsg login_failed s1 /\
     authMsg s' = login_failed /\
     token s' = token s /\
     localStorage s' = localStorage s /\
     authSection_hidden s' = authSection_hidden s /\
     tasksSection_hidden s' = tasksSection_hidden s) /\
  (let s' := exec (loginBtn_onclick Rejected rl) s in
   s' = set_authMsg network_error s1 /\
   authMsg s' = network_error).
Proof.
  cbv zeta. unfold exec. split; [|split].
  - intros resp data v stored Hok Hj Hp Hc.
    rewrite login_run. cbv zeta. rewrite Hok, Hj, Hp, Hc. repeat split.
  - intros resp Hok. rewrite login_run. cbv zeta. rewrite Hok. repeat split.
  - rewrite login_run. repeat split.
Qed.

Lemma login_outcomes_witness :
  exec (loginBtn_onclick (Resolved (mkResponse 200 (Some token_body))) Rejected)
       alice_form =
  exec (loadTasks Rejected)
       (logged_in (JStr "tok1") "tok1"
          (sent (login_request "alice" "x") alice_form)) /\
  authMsg (exec (loginBtn_onclick (Resolved (mkResponse 401 None)) Rejected)
             alice_form) = login_failed.
Proof.
  destruct (login_outcomes Rejected alice_form) as [H1 [H2 _]].
  split.
  - apply (H1 (mkResponse 200 (Some token_body)) token_body (JStr "tok1") "tok1");
      reflexivity.
  - apply (H2 (mkResponse 401 None)). reflexivity.
Defined.

(** ** Initialisation *)

(** The script, case by case on the stored entry. *)
Lemma initialisation_run (rl : fetch_result) (s0 : state) :
  initialisation rl s0 =
  match localStorage s0 with
  | Some t =>
      if String.eqb t EmptyString
      then showAuth (set_token (JStr t) s0)
      else loadTasks rl (tasks_shown (set_token (JStr t) s0))
  | None => showAuth (set_token JNull s0)
  end.
Proof.
  unfold initialisation, read_storage, showTasks, bind, read, modify.
  cbn -[loadTasks showAuth].
  destruct (localStorage s0) as [t|]; cbn -[loadTasks showAuth]; [|reflexivity].
  destruct (String.eqb t EmptyString); reflexivity.
Qed.

(** C8, as the code has it: at startup the tasks panel is chosen, and
    LoadTasks started, exactly when storage holds a non-empty token; with no
    entry or an empty one the auth panel is shown and nothing is requested.
    LoadTasks does nothing when the token in memory is absent. *)
Theorem initial_view (rl : fetch_result) (s0 : state) :
  (forall t,
     localStorage s0 = Some t -> t <> EmptyString ->
     let s1 := tasks_shown (set_token (JStr t) s0) in
     view s1 = Some TasksView /\
     exec (initialisation rl) s0 = exec (loadTasks rl) s1) /\
  (localStorage s0 = None \/ localStorage s0 = Some EmptyString ->
     let s' := exec (initialisation rl) s0 in
     view s' = Some AuthView /\ fetched s' = fetched s0) /\
  (forall r s, truthy (token s) = false -> exec (loadTasks r) s = s).
Proof.
  unfold exec. split; [|split].
  - intros t Hs Hn. rewrite initialisation_run, Hs.
    destruct (String.eqb_spec t EmptyString); [contradiction|].
    split; reflexivity.
  - intros [Hs|Hs]; rewrite initialisation_run, Hs; split; reflexivity.
  - intros r s H. rewrite (loadTasks_without_token r s H). reflexivity.
Qed.

Lemma initial_view_witness :
  exec (initialisation Rejected) (set_localStorage (Some "tok1") blank_page) =
  exec (loadTasks Rejected)
       (tasks_shown (set_token (JStr "tok1") (set_localStorage (Some "tok1") blank_page))) /\
  view (exec (initialisation Rejected) blank_page) = Some AuthView /\
  exec (loadTasks Rejected) blank_page = blank_page.
Proof.
  split; [|split].
  - apply (proj1 (initial_view Rejected (set_localStorage (Some "tok1") blank_page))
             "tok1"); [reflexivity | discriminate].
  - apply (proj1 (proj2 (initial_view Rejected blank_page))). left. reflexivity.
  - apply (proj2 (proj2 (initial_view Rejected blank_page))). reflexivity.
Defined.

(** C8 fails when the stored entry is the empty string: a persisted entry
    exists, yet the auth panel is shown and the entry is removed. *)
Lemma empty_stored_token_shows_auth :
  let s' := exec (initialisation Rejected) empty_token_page in
  localStorage empty_token_page = Some EmptyString /\
  view s' = Some AuthView /\
  localStorage s' = None /\
  fetched s' = [].
Proof. cbn. repeat split. Qed.

(** ** Login with a body that has no access token *)

Lemma login_missing_token_run (rl : fetch_result) (s : state)
    (resp : response) (data : jsval) :
  ok resp = true ->
  json_body resp = Some data ->
  lacks_prop data "access_token" ->
  loginBtn_onclick (Resolved resp) rl s =
  (Ok tt, logged_in JUndefined "undefined"
            (sent (login_request (username s) (password s))
               (set_authMsg EmptyString s))).
Proof.
  intros Hok Hj Hp. rewrite login_run. cbv zeta. rewrite Hok, Hj, Hp.
  cbn [to_string].
  apply loadTasks_without_token. reflexivity.
Qed.

(** C10, as the code has it: after a 2xx answer whose JSON body has no
    [access_token], the token in memory is [undefined], so the LoadTasks that
    follows sends nothing and the tasks panel is shown with the list as it
    was rendered before; storage holds the text "undefined", and a page
    started on that storage takes it for a token: it shows the tasks panel
    and requests the list with it. *)
Theorem login_without_access_token (rl : fetch_result) (s : state)
    (resp : response) (data : jsval) :
  ok resp = true ->
  json_body resp = Some data ->
  lacks_prop data "access_token" ->
  let s' := exec (loginBtn_onclick (Resolved resp) rl) s in
  token s' = JUndefined /\
  localStorage s' = Some "undefined" /\
  view s' = Some TasksView /\
  fetched s' = (fetched s ++ [login_request (username s) (password s)])%list /\
  tasksList s' = tasksList s /\
  (forall rl' s0,
     localStorage s0 = localStorage s' ->
     let s1 := tasks_shown (set_token (JStr "undefined") s0) in
     truthy (token s1) = true /\
     view s1 = Some TasksView /\
     exec (initialisation rl') s0 = exec (loadTasks rl') s1 /\
     fetched (exec (initialisation rl') s0) =
       (fetched s0 ++ [list_request "undefined"])%list).
Proof.
  intros Hok Hj Hp. unfold exec at 1.
  rewrite (login_missing_token_run rl s resp data Hok Hj Hp).
  cbn [snd]. do 5 (split; [reflexivity|]).
  intros rl' s0 Hs0. cbv zeta. split; [reflexivity|]. split; [reflexivity|].
  assert (E : initialisation rl' s0 =
              loadTasks rl' (tasks_shown (set_token (JStr "undefined") s0))).
  { rewrite initialisation_run, Hs0. reflexivity. }
  unfold exec at 1 3. rewrite E. split; [reflexivity|].
  apply (loadTasks_fetched rl' (tasks_shown (set_token (JStr "undefined") s0))
           "undefined"); reflexivity.
Qed.

Lemma login_without_access_token_witness :
  let s' := exec (loginBtn_onclick (Resolved (mkResponse 200 (Some (JObj []))))
                    Rejected) alice_form in
  token s' = JUndefined /\
  localStorage s' = Some "undefined" /\
  view s' = Some TasksView /\
  fetched s' = [login_request "alice" "x"] /\
  tasksList s' = [].
Proof.
  destruct (login_without_access_token Rejected alice_form
              (mkResponse 200 (Some (JObj []))) (JObj []) eq_refl eq_refl eq_refl)
    as (H1 & H2 & H3 & H4 & H5 & _).
  repeat split; assumption.
Defined.

(** C10 fails on the emptiness of the tasks panel: after a logout, which
    leaves the rendered list in place, a login answered by an empty object
    shows the tasks panel with the list of the earlier session. *)
Lemma stale_list_after_tokenless_login :
  let s := exec logoutBtn_onclick returning_page in
  let s' := exec (loginBtn_onclick (Resolved (mkResponse 200 (Some (JObj []))))
                    Rejected) s in
  token s' = JUndefined /\
  view s' = Some TasksView /\
  tasksList s' = ["Buy milk"].
Proof. cbn. repeat split. Qed.

(** ** The session invariant *)

Lemma invariant_logged_out : invariant_on (JNull, None, false, true).
Proof. cbn. repeat split; intros; try discriminate; reflexivity. Qed.

Lemma invariant_logged_in (v : jsval) (stored : option string) :
  truthy v = true -> invariant_on (v, stored, true, false).
Proof.
  intros H. cbn. repeat split; intros; try assumption; try reflexivity; congruence.
Qed.

(** LoadTasks keeps the session or ends it. *)
Lemma loadTasks_session (r : fetch_result) (s : state) :
  session_of (exec (loadTasks r) s) = session_of s \/
  session_of (exec (loadTasks r) s) = (JNull, None, false, true).
Proof.
  unfold exec. destruct (truthy (token s)) eqn:Ht.
  - rewrite (loadTasks_run r s Ht). cbn [snd].
    destruct (to_string (token s)) as [bearer|]; [|left; reflexivity].
    destruct r as [|resp]; [left; reflexivity|]. cbv zeta.
    destruct (status resp =? 401); [right; reflexivity|].
    destruct (json_body resp) as [tasks|]; [|left; reflexivity].
    left. destruct tasks; try reflexivity.
    cbn [after_render]. destruct (snd (rendered items)); reflexivity.
  - rewrite (loadTasks_without_token r s Ht). left. reflexivity.
Qed.

Lemma loadTasks_invariant (r : fetch_result) (s : state) :
  session_invariant s -> session_invariant (exec (loadTasks r) s).
Proof.
  unfold session_invariant. intros H.
  destruct (loadTasks_session r s) as [E|E]; rewrite E.
  - exact H.
  - exact invariant_logged_out.
Qed.

Lemma register_session (r : fetch_result) (s : state) :
  session_of (exec (registerBtn_onclick r) s) = session_of s.
Proof.
  unfold exec, registerBtn_onclick, bind, read, try_catch, json. cbn.
  destruct r as [|resp]; cbn; [reflexivity|].
  destruct (status resp =? 201); cbn; [reflexivity|].
  destruct (json_body resp) as [data|]; cbn; [|reflexivity].
  destruct (get_prop data "detail") as [detail|]; cbn; [|reflexivity].
  destruct (to_string detail); reflexivity.
Qed.

Lemma addTask_invariant (r rl : fetch_result) (s : state) :
  session_invariant s -> session_invariant (exec (addTaskBtn_onclick r rl) s).
Proof.
  intros H. unfold exec.
  destruct (truthy (token s)) eqn:Ht;
    [|rewrite (addTask_without_token r rl s Ht); exact H].
  destruct (String.eqb_spec (task_title s) EmptyString) as [He|Hn];
    [rewrite (addTask_empty_title r rl s He); exact H|].
  rewrite (addTask_run r rl s Ht Hn).
  destruct (to_string (token s)) as [bearer|]; [|exact H].
  destruct r as [|resp]; [exact H|]. cbv zeta.
  destruct (status resp =? 201); [|exact H].
  apply loadTasks_invariant. exact H.
Qed.

Lemma login_invariant (r rl : fetch_result) (s : state) :
  login_sound r = true ->
  session_invariant s -> session_invariant (exec (loginBtn_onclick r rl) s).
Proof.
  intros Hr H. unfold exec. rewrite login_run. cbv zeta.
  destruct r as [|resp]; [exact H|]. cbn [login_sound] in Hr.
  destruct (ok resp); [|exact H].
  destruct (json_body resp) as [data|]; [|exact H].
  destruct (get_prop data "access_token") as [v|]; [|exact H].
  apply andb_prop in Hr. destruct Hr as [Hv Hc].
  destruct (to_string v) as [stored|]; [|discriminate].
  apply loadTasks_invariant.
  exact (invariant_logged_in v (Some stored) Hv).
Qed.

Lemma initialisation_invariant (rl : fetch_result) (s0 : state) :
  session_invariant (exec (initialisation rl) s0).
Proof.
  unfold exec. rewrite initialisation_run.
  destruct (localStorage s0) as [t|]; [|exact invariant_logged_out].
  destruct (String.eqb t EmptyString) eqn:Et; [exact invariant_logged_out|].
  apply loadTasks_invariant.
  apply (invariant_logged_in (JStr t) (localStorage s0)). cbn. rewrite Et. reflexivity.
Qed.

Lemma run_invariant (op : operation) (s : state) :
  sound_operation op -> session_invariant s -> session_invariant (run op s).
Proof.
  intros Hop H. destruct op; cbn [run].
  - unfold session_invariant. rewrite register_session. exact H.
  - apply login_invariant; assumption.
  - exact invariant_logged_out.
  - apply loadTasks_invariant. exact H.
  - apply addTask_invariant. exact H.
  - exact H.
  - exact H.
  - exact H.
Qed.

(** C1, as the code has it: the invariant holds after initialisation and
    after every completed Register, Login, Logout, LoadTasks and AddTask, as
    long as each 2xx login answer that yields an access token yields a truthy
    one that can be written to storage. *)
Theorem session_invariant_reachable (s : state) :
  reachable sound_operation s -> session_invariant s.
Proof.
  induction 1 as [rl s0 | op s _ IH Hop].
  - apply initialisation_invariant.
  - apply run_invariant; assumption.
Qed.

Lemma session_invariant_reachable_witness :
  session_invariant
    (run (OpAddTask (Resolved (mkResponse 201 None)) (Resolved (mkResponse 401 None)))
       (run (OpTypeTitle "Walk dog")
          (run (OpLogin (Resolved (mkResponse 200 (Some token_body))) Rejected)
             (exec (initialisation Rejected) alice_form)))).
Proof.
  apply session_invariant_reachable.
  apply reachable_step; [|exact I].
  apply reachable_step; [|exact I].
  apply reachable_step; [|reflexivity].
  apply reachable_start.
Defined.

(** C1 fails after a login answered by a 2xx whose body has no access token:
    no token is present, yet the tasks panel is shown, the auth panel is
    hidden and storage holds an entry. *)
Lemma session_invariant_broken_by_login :
  let s := run (OpLogin (Resolved (mkResponse 200 (Some (JObj [])))) Rejected)
             (exec (initialisation Rejected) blank_page) in
  reachable any_operation s /\
  truthy (token s) = false /\
  tasksSection_hidden s = false /\
  authSection_hidden s = true /\
  localStorage s = Some "undefined" /\
  ~ session_invariant s.
Proof.
  cbv zeta. split.
  - apply reachable_step; [apply reachable_start | exact I].
  - cbn. repeat split. intros [[H _] _]. specialize (H eq_refl). discriminate.
Qed.

(** ** The scenarios of the specification *)

(** Alice logs in, sees her one task, adds a second one and sees both. *)
Example scenario_login_load_add :
  let milk := JObj [("title", JStr "Buy milk"); ("completed", JBool false)] in
  let dog := JObj [("title", JStr "Walk dog"); ("completed", JBool false)] in
  let s1 := run (OpLogin (Resolved (mkResponse 200 (Some token_body)))
                         (Resolved (mkResponse 200 (Some (JArr [milk])))))
              (exec (initialisation Rejected) alice_form) in
  let s2 := run (OpAddTask (Resolved (mkResponse 201 None))
                           (Resolved (mkResponse 200 (Some (JArr [milk; dog])))))
              (run (OpTypeTitle "Walk dog") s1) in
  token s1 = JStr "tok1" /\
  localStorage s1 = Some "tok1" /\
  view s1 = Some TasksView /\
  tasksList s1 = ["Buy milk"] /\
  tasksList s2 = ["Buy milk"; "Walk dog"] /\
  task_title s2 = EmptyString.
Proof. cbn. repeat split. Qed.

(** Registering a taken user name displays the detail of the error body. *)
Example scenario_register_taken :
  let resp := mkResponse 400 (Some (JObj [("detail", JStr "username taken")])) in
  authMsg (run (OpRegister (Resolved resp)) alice_form) = "Erreur: username taken".
Proof. reflexivity. Qed.

(** ** Register *)

(** [registerBtn.onclick], case by case. *)
Lemma register_run (r : fetch_result) (s : state) :
  registerBtn_onclick r s =
  (Ok tt,
   let s1 := sent (register_request (username s) (password s)) s in
   match r with
   | Rejected => set_authMsg network_error s1
   | Resolved resp =>
       if status resp =? 201 then set_authMsg register_succeeded s1
       else match json_body resp with
            | None => set_authMsg network_error s1
            | Some data =>
                match get_prop data "detail" with
                | None => set_authMsg network_error s1
                | Some detail =>
                    match to_string detail with
                    | None => set_authMsg network_error s1
                    | Some text => set_authMsg ("Erreur: " ++ text) s1
                    end
                end
            end
   end).
Proof.
  unfold registerBtn_onclick, bind, read, try_catch, json. cbn.
  destruct r as [|resp]; cbn; [reflexivity|].
  destruct (status resp =? 201); cbn; [reflexivity|].
  destruct (json_body resp) as [data|]; cbn; [|reflexivity].
  destruct (get_prop data "detail") as [detail|]; cbn; [|reflexivity].
  destruct (to_string detail); reflexivity.
Qed.

(** X1: whatever the answer, Register sends exactly one request, the POST of
    the typed credentials as JSON, replaces the message by one of its three
    texts, and touches nothing else: the session, the panels, the list, the
    inputs and the console stay as they were. *)
Theorem register_only_sets_message (r : fetch_result) (s : state) :
  let s' := exec (registerBtn_onclick r) s in
  fetched s' = (fetched s ++ [register_request (username s) (password s)])%list /\
  session_of s' = session_of s /\
  tasksList s' = tasksList s /\
  username s' = username s /\
  password s' = password s /\
  task_title s' = task_title s /\
  console s' = console s /\
  (authMsg s' = register_succeeded \/
   authMsg s' = network_error \/
   exists text, authMsg s' = "Erreur: " ++ text).
Proof.
  unfold exec. rewrite register_run. cbn [snd]. cbv zeta.
  destruct r as [|resp]; [cbn; repeat split; auto|].
  destruct (status resp =? 201); [cbn; repeat split; auto|].
  destruct (json_body resp) as [data|]; [|cbn; repeat split; auto].
  destruct (get_prop data "detail") as [detail|]; [|cbn; repeat split; auto].
  destruct (to_string detail) as [text|]; cbn; repeat split; eauto.
Qed.

(** X2: the message Register displays.  A 201 gives the success text without
    the body being read; any other status gives "Erreur: " followed by the
    text of the body's [detail] (the text "undefined" when the body has
    none); a body that is not JSON or is [null], like a rejected request,
    gives the network-error text. *)
Theorem register_messages (s : state) (resp : response) :
  (status resp = 201 ->
   authMsg (exec (registerBtn_onclick (Resolved resp)) s) = register_succeeded) /\
  (forall data detail text,
     status resp <> 201 ->
     json_body resp = Some data ->
     get_prop data "detail" = Some detail ->
     to_string detail = Some text ->
     authMsg (exec (registerBtn_onclick (Resolved resp)) s) = "Erreur: " ++ text) /\
  (forall data,
     status resp <> 201 ->
     json_body resp = Some data ->
     lacks_prop data "detail" ->
     authMsg (exec (registerBtn_onclick (Resolved resp)) s) = "Erreur: undefined") /\
  (status resp <> 201 ->
   json_body resp = None \/ json_body resp = Some JNull ->
   authMsg (exec (registerBtn_onclick (Resolved resp)) s) = network_error) /\
  authMsg (exec (registerBtn_onclick Rejected) s) = network_error.
Proof.
  unfold exec. repeat split.
  - intros Hs. rewrite register_run. cbn [snd]. cbv zeta. rewrite Hs. reflexivity.
  - intros data detail text Hs Hj Hd Ht. apply Z.eqb_neq in Hs.
    rewrite register_run. cbn [snd]. cbv zeta. rewrite Hs, Hj, Hd, Ht. reflexivity.
  - intros data Hs Hj Hd. apply Z.eqb_neq in Hs. unfold lacks_prop in Hd.
    rewrite register_run. cbn [snd]. cbv zeta. rewrite Hs, Hj, Hd. reflexivity.
  - intros Hs Hj. apply Z.eqb_neq in Hs.
    rewrite register_run. cbn [snd]. cbv zeta. rewrite Hs.
    destruct Hj as [Hj|Hj]; rewrite Hj; reflexivity.
Qed.

Lemma register_messages_witness :
  authMsg (exec (registerBtn_onclick (Resolved (mkResponse 201 None))) alice_form) =
    register_succeeded /\
  authMsg (exec (registerBtn_onclick
                   (Resolved (mkResponse 400
                      (Some (JObj [("detail", JStr "username taken")])))))
             alice_form) = "Erreur: username taken" /\
  authMsg (exec (registerBtn_onclick (Resolved (mkResponse 422 (Some (JObj [])))))
             alice_form) = "Erreur: undefined" /\
  authMsg (exec (registerBtn_onclick (Resolved (mkResponse 502 None))) alice_form) =
    network_error.
Proof.
  split; [|split; [|split]].
  - apply (proj1 (register_messages alice_form (mkResponse 201 None))). reflexivity.
  - apply (proj1 (proj2 (register_messages alice_form
             (mkResponse 400 (Some (JObj [("detail", JStr "username taken")])))))
             (JObj [("detail", JStr "username taken")]) (JStr "username taken")
             "username taken"); [discriminate | reflexivity | reflexivity | reflexivity].
  - apply (proj1 (proj2 (proj2 (register_messages alice_form
             (mkResponse 422 (Some (JObj []))))))
             (JObj [])); [discriminate | reflexivity | reflexivity].
  - apply (proj1 (proj2 (proj2 (proj2 (register_messages alice_form
             (mkResponse 502 None)))))); [discriminate | left; reflexivity].
Defined.

(** ** Login: the answers the contract does not foresee *)

Lemma unconvertible_truthy (v : jsval) :
  to_string v = None -> truthy v = true.
Proof.
  destruct v as [| |b| | | |]; cbn; try discriminate; try reflexivity.
  destruct b; discriminate.
Qed.

Lemma falsy_converts (v : jsval) :
  truthy v = false -> exists text, to_string v = Some text.
Proof.
  destruct v as [| |b|repr|t|items|props]; cbn; try discriminate; eauto.
  destruct b; eauto.
Qed.

(** LoadTasks leaves the session alone unless it is answered by a 401. *)
Lemma loadTasks_session_unless_401 (r : fetch_result) (s : state) :
  is_401 r = false -> session_of (exec (loadTasks r) s) = session_of s.
Proof.
  intros Hr. unfold exec. destruct (truthy (token s)) eqn:Ht.
  - rewrite (loadTasks_run r s Ht). cbn [snd].
    destruct (to_string (token s)) as [bearer|]; [|reflexivity].
    destruct r as [|resp]; [reflexivity|]. cbv zeta. cbn [is_401] in Hr.
    rewrite Hr.
    destruct (json_body resp) as [tasks|]; [|reflexivity].
    destruct tasks; try reflexivity.
    cbn [after_render]. destruct (snd (rendered items)); reflexivity.
  - rewrite (loadTasks_without_token r s Ht). reflexivity.
Qed.

(** X3: a 2xx login answer whose body is not JSON, or is [null], is reported
    as a network error; the login request is the only one sent and the
    session, the panels, the list and the console are as before. *)
Theorem login_unreadable_body (rl : fetch_result) (s : state) (resp : response) :
  ok resp = true ->
  json_body resp = None \/ json_body resp = Some JNull ->
  let s' := exec (loginBtn_onclick (Resolved resp) rl) s in
  authMsg s' = network_error /\
  session_of s' = session_of s /\
  tasksList s' = tasksList s /\
  console s' = console s /\
  fetched s' = (fetched s ++ [login_request (username s) (password s)])%list.
Proof.
  intros Hok Hj. unfold exec. rewrite login_run. cbv zeta. rewrite Hok.
  destruct Hj as [Hj|Hj]; rewrite Hj; cbn; repeat split.
Qed.

Lemma login_unreadable_body_witness :
  let s' := exec (loginBtn_onclick (Resolved (mkResponse 200 (Some JNull))) Rejected)
              alice_form in
  authMsg s' = network_error /\
  session_of s' = session_of alice_form /\
  tasksList s' = tasksList alice_form /\
  console s' = console alice_form /\
  fetched s' = (fetched alice_form ++ [login_request "alice" "x"])%list.
Proof.
  apply (login_unreadable_body Rejected alice_form (mkResponse 200 (Some JNull)));
    [reflexivity | right; reflexivity].
Defined.

(** X4: when the access token of a 2xx answer cannot be converted to text,
    the assignment to the variable has already happened when
    [localStorage.setItem] throws: the token in memory is replaced, while
    storage and the panels keep their values and the network-error text is
    displayed.  Such a token passes the guard of LoadTasks but cannot be
    written into the header, so a later LoadTasks sends nothing and logs a
    TypeError. *)
Theorem login_unstorable_token (rl r : fetch_result) (s : state)
    (resp : response) (data v : jsval) :
  ok resp = true ->
  json_body resp = Some data ->
  get_prop data "access_token" = Some v ->
  to_string v = None ->
  let s' := exec (loginBtn_onclick (Resolved resp) rl) s in
  token s' = v /\
  localStorage s' = localStorage s /\
  authSection_hidden s' = authSection_hidden s /\
  tasksSection_hidden s' = tasksSection_hidden s /\
  authMsg s' = network_error /\
  fetched s' = (fetched s ++ [login_request (username s) (password s)])%list /\
  exec (loadTasks r) s' = logged load_error (Some TypeError) s'.
Proof.
  intros Hok Hj Hp Hc. unfold exec at 1. rewrite login_run. cbv zeta.
  rewrite Hok, Hj, Hp, Hc. cbn [snd]. do 6 (split; [reflexivity|]).
  unfold exec. rewrite loadTasks_run; [|exact (unconvertible_truthy v Hc)].
  cbn [snd token set_authMsg set_token]. rewrite Hc. reflexivity.
Qed.

Lemma login_unstorable_token_witness :
  let s' := exec (loginBtn_onclick (Resolved (mkResponse 200 (Some opaque_body)))
                    Rejected) alice_form in
  token s' = opaque_token /\
  localStorage s' = None /\
  authSection_hidden s' = false /\
  tasksSection_hidden s' = true /\
  authMsg s' = network_error /\
  fetched s' = [login_request "alice" "x"] /\
  exec (loadTasks Rejected) s' = logged load_error (Some TypeError) s'.
Proof.
  apply (login_unstorable_token Rejected Rejected alice_form
           (mkResponse 200 (Some opaque_body)) opaque_body opaque_token);
    reflexivity.
Defined.

(** X5: when the access token of a 2xx answer is falsy ([null], [false], the
    number zero, the empty string, or absent), it can always be converted,
    so its text is written to storage and the tasks panel is shown; the
    LoadTasks that follows finds no token and sends nothing, and the list is
    the one rendered before. *)
Theorem login_falsy_token (rl : fetch_result) (s : state)
    (resp : response) (data v : jsval) :
  ok resp = true ->
  json_body resp = Some data ->
  get_prop data "access_token" = Some v ->
  truthy v = false ->
  let s' := exec (loginBtn_onclick (Resolved resp) rl) s in
  token s' = v /\
  to_string v = localStorage s' /\
  localStorage s' <> None /\
  view s' = Some TasksView /\
  tasksList s' = tasksList s /\
  fetched s' = (fetched s ++ [login_request (username s) (password s)])%list.
Proof.
  intros Hok Hj Hp Hv. destruct (falsy_converts v Hv) as [text Hc].
  unfold exec. rewrite login_run. cbv zeta. rewrite Hok, Hj, Hp, Hc.
  rewrite loadTasks_without_token; [|exact Hv].
  cbn. repeat split. discriminate.
Qed.

Lemma login_falsy_token_witness :
  let s' := exec (loginBtn_onclick
                    (Resolved (mkResponse 200 (Some (JObj [("access_token", JNull)]))))
                    Rejected) alice_form in
  token s' = JNull /\
  to_string JNull = localStorage s' /\
  localStorage s' <> None /\
  view s' = Some TasksView /\
  tasksList s' = tasksList alice_form /\
  fetched s' = (fetched alice_form ++ [login_request "alice" "x"])%list.
Proof.
  apply (login_falsy_token Rejected alice_form
           (mkResponse 200 (Some (JObj [("access_token", JNull)])))
           (JObj [("access_token", JNull)]) JNull); reflexivity.
Defined.

(** X6: a login that succeeds but whose token the Tasks service refuses at
    once ends logged out without a word: the token is cleared in memory and
    in storage, the auth panel is shown, the message is empty and nothing is
    logged. *)
Theorem login_then_401 (s : state) (resp respl : response)
    (data v : jsval) (stored : string) :
  ok resp = true ->
  json_body resp = Some data ->
  get_prop data "access_token" = Some v ->
  truthy v = true ->
  to_string v = Some stored ->
  status respl = 401 ->
  let s' := exec (loginBtn_onclick (Resolved resp) (Resolved respl)) s in
  token s' = JNull /\
  localStorage s' = None /\
  view s' = Some AuthView /\
  authMsg s' = EmptyString /\
  console s' = console s /\
  fetched s' = (fetched s ++ [login_request (username s) (password s);
                              list_request stored])%list.
Proof.
  intros Hok Hj Hp Hv Hc Hs. unfold exec. rewrite login_run. cbv zeta.
  rewrite Hok, Hj, Hp, Hc.
  rewrite (loadTasks_401 respl
             (logged_in v stored
                (sent (login_request (username s) (password s))
                   (set_authMsg EmptyString s)))
             stored Hv Hc Hs).
  cbn. rewrite <- app_assoc. repeat split.
Qed.

Lemma login_then_401_witness :
  let s' := exec (loginBtn_onclick (Resolved (mkResponse 200 (Some token_body)))
                    (Resolved (mkResponse 401 None))) alice_form in
  token s' = JNull /\
  localStorage s' = None /\
  view s' = Some AuthView /\
  authMsg s' = EmptyString /\
  console s' = console alice_form /\
  fetched s' = (fetched alice_form ++ [login_request "alice" "x";
                                       list_request "tok1"])%list.
Proof.
  apply (login_then_401 alice_form (mkResponse 200 (Some token_body))
           (mkResponse 401 None) token_body (JStr "tok1") "tok1");
    reflexivity.
Defined.

(** ** The stored token across a reload *)

Lemma login_accepted_run (rl : fetch_result) (s : state)
    (resp : response) (data v : jsval) (stored : string) :
  ok resp = true ->
  json_body resp = Some data ->
  get_prop data "access_token" = Some v ->
  to_string v = Some stored ->
  loginBtn_onclick (Resolved resp) rl s =
  loadTasks rl (logged_in v stored
                  (sent (login_request (username s) (password s))
                     (set_authMsg EmptyString s))).
Proof.
  intros Hok Hj Hp Hc. rewrite login_run. cbv zeta.
  rewrite Hok, Hj, Hp, Hc. reflexivity.
Qed.

Lemma initialisation_with_token (rl : fetch_result) (s0 : state) (t : string) :
  localStorage s0 = Some t ->
  t <> EmptyString ->
  initialisation rl s0 = loadTasks rl (tasks_shown (set_token (JStr t) s0)).
Proof.
  intros Hs Hn. rewrite initialisation_run, Hs.
  destruct (String.eqb_spec t EmptyString); [contradiction | reflexivity].
Qed.

(** X7: the token survives a reload as its text.  After a login that gave a
    truthy token whose text is not empty, and whose list request was not
    answered by a 401, storage holds that text; a page started on this
    storage asks for the list with the same Authorization header as the
    login did, and, unless answered by a 401, holds the text as its token
    and shows the tasks panel. *)
Theorem token_survives_reload (rl rl' : fetch_result) (s s0 : state)
    (resp : response) (data v : jsval) (stored : string) :
  ok resp = true ->
  json_body resp = Some data ->
  get_prop data "access_token" = Some v ->
  truthy v = true ->
  to_string v = Some stored ->
  stored <> EmptyString ->
  is_401 rl = false ->
  let s' := exec (loginBtn_onclick (Resolved resp) rl) s in
  localStorage s0 = localStorage s' ->
  let s'' := exec (initialisation rl') s0 in
  localStorage s' = Some stored /\
  fetched s' = (fetched s ++ [login_request (username s) (password s);
                              list_request stored])%list /\
  fetched s'' = (fetched s0 ++ [list_request stored])%list /\
  (is_401 rl' = false ->
   token s'' = JStr stored /\
   localStorage s'' = Some stored /\
   view s'' = Some TasksView).
Proof.
  intros Hok Hj Hp Hv Hc Hn Hrl. cbv zeta.
  assert (Hst : localStorage (exec (loginBtn_onclick (Resolved resp) rl) s) =
                Some stored).
  { unfold exec. rewrite (login_accepted_run rl s resp data v stored Hok Hj Hp Hc).
    set (s2 := logged_in _ _ _).
    pose proof (loadTasks_session_unless_401 rl s2 Hrl) as E.
    unfold session_of, exec in E. injection E as _ E2 _ _.
    rewrite E2. reflexivity. }
  intros Hs0. rewrite Hst in Hs0.
  assert (Ht : truthy (JStr stored) = true) by (apply truthy_title; exact Hn).
  split; [exact Hst|]. split; [|split].
  - unfold exec at 1. rewrite (login_accepted_run rl s resp data v stored Hok Hj Hp Hc).
    set (s2 := logged_in _ _ _).
    change (snd (loadTasks rl s2)) with (exec (loadTasks rl) s2).
    rewrite (loadTasks_fetched rl s2 stored Hv Hc).
    cbn. rewrite <- app_assoc. reflexivity.
  - unfold exec at 1. rewrite (initialisation_with_token rl' s0 stored Hs0 Hn).
    apply (loadTasks_fetched rl' (tasks_shown (set_token (JStr stored) s0)) stored);
      [exact Ht | reflexivity].
  - intros Hrl'. unfold exec.
    rewrite (initialisation_with_token rl' s0 stored Hs0 Hn).
    pose proof (loadTasks_session_unless_401 rl'
                  (tasks_shown (set_token (JStr stored) s0)) Hrl') as E.
    unfold session_of, exec in E. unfold view.
    injection E as E1 E2 E3 E4. rewrite E1, E2, E3, E4.
    split; [reflexivity|]. split; [exact Hs0 | reflexivity].
Qed.

Lemma token_survives_reload_witness :
  let s' := exec (loginBtn_onclick (Resolved (mkResponse 200 (Some token_body)))
                    Rejected) alice_form in
  let s'' := exec (initialisation Rejected)
               (set_localStorage (Some "tok1") blank_page) in
  localStorage s' = Some "tok1" /\
  fetched s' = [login_request "alice" "x"; list_request "tok1"] /\
  fetched s'' = [list_request "tok1"] /\
  (is_401 Rejected = false ->
   token s'' = JStr "tok1" /\
   localStorage s'' = Some "tok1" /\
   view s'' = Some TasksView).
Proof.
  apply (token_survives_reload Rejected Rejected alice_form
           (set_localStorage (Some "tok1") blank_page)
           (mkResponse 200 (Some token_body)) token_body (JStr "tok1") "tok1");
    try reflexivity.
  discriminate.
Defined.

(** X8: a truthy token whose text is empty (an empty array, for one) does
    not survive a reload.  The login shows the tasks panel and asks for the
    list with an empty bearer, and stores the empty text; a page started on
    that storage shows the auth panel, sends nothing and removes the
    entry. *)
Theorem empty_text_token_lost_on_reload (rl rl' : fetch_result) (s s0 : state)
    (resp : response) (data v : jsval) :
  ok resp = true ->
  json_body resp = Some data ->
  get_prop data "access_token" = Some v ->
  truthy v = true ->
  to_string v = Some EmptyString ->
  is_401 rl = false ->
  let s' := exec (loginBtn_onclick (Resolved resp) rl) s in
  localStorage s0 = localStorage s' ->
  let s'' := exec (initialisation rl') s0 in
  token s' = v /\
  view s' = Some TasksView /\
  fetched s' = (fetched s ++ [login_request (username s) (password s);
                              list_request EmptyString])%list /\
  view s'' = Some AuthView /\
  token s'' = JNull /\
  localStorage s'' = None /\
  fetched s'' = fetched s0.
Proof.
  intros Hok Hj Hp Hv Hc Hrl. cbv zeta.
  assert (Hse : session_of (exec (loginBtn_onclick (Resolved resp) rl) s) =
                (v, Some EmptyString, true, false)).
  { unfold exec. rewrite (login_accepted_run rl s resp data v _ Hok Hj Hp Hc).
    set (s2 := logged_in _ _ _).
    exact (loadTasks_session_unless_401 rl s2 Hrl). }
  unfold session_of in Hse. injection Hse as E1 E2 E3 E4.
  intros Hs0. rewrite E2 in Hs0.
  split; [exact E1|]. split; [unfold view; rewrite E3, E4; reflexivity|].
  split.
  - unfold exec at 1. rewrite (login_accepted_run rl s resp data v _ Hok Hj Hp Hc).
    set (s2 := logged_in _ _ _).
    change (snd (loadTasks rl s2)) with (exec (loadTasks rl) s2).
    rewrite (loadTasks_fetched rl s2 EmptyString Hv Hc).
    cbn. rewrite <- app_assoc. reflexivity.
  - unfold exec. rewrite initialisation_run, Hs0. cbn. repeat split.
Qed.

Lemma empty_text_token_lost_on_reload_witness :
  let body := JObj [("access_token", JArr [])] in
  let s' := exec (loginBtn_onclick (Resolved (mkResponse 200 (Some body))) Rejected)
              alice_form in
  let s'' := exec (initialisation Rejected)
               (set_localStorage (Some EmptyString) blank_page) in
  token s' = JArr [] /\
  view s' = Some TasksView /\
  fetched s' = [login_request "alice" "x"; list_request EmptyString] /\
  view s'' = Some AuthView /\
  token s'' = JNull /\
  localStorage s'' = None /\
  fetched s'' = [].
Proof.
  apply (empty_text_token_lost_on_reload Rejected Rejected alice_form
           (set_localStorage (Some EmptyString) blank_page)
           (mkResponse 200 (Some (JObj [("access_token", JArr [])])))
           (JObj [("access_token", JArr [])]) (JArr []));
    reflexivity.
Defined.

(** X9: a page started on a stored token that the Tasks service refuses
    purges it: the list request carries the stored text, and the 401 leaves
    the token cleared in memory and in storage and the auth panel shown,
    with no message and nothing logged. *)
Theorem startup_with_refused_token (s0 : state) (t : string) (resp : response) :
  localStorage s0 = Some t ->
  t <> EmptyString ->
  status resp = 401 ->
  let s' := exec (initialisation (Resolved resp)) s0 in
  token s' = JNull /\
  localStorage s' = None /\
  view s' = Some AuthView /\
  fetched s' = (fetched s0 ++ [list_request t])%list /\
  authMsg s' = authMsg s0 /\
  console s' = console s0 /\
  tasksList s' = tasksList s0.
Proof.
  intros Hs Hn H401. unfold exec.
  rewrite (initialisation_with_token (Resolved resp) s0 t Hs Hn).
  rewrite (loadTasks_401 resp (tasks_shown (set_token (JStr t) s0)) t
             (truthy_title t Hn) eq_refl H401).
  cbn. repeat split.
Qed.

Lemma startup_with_refused_token_witness :
  let s' := exec (initialisation (Resolved (mkResponse 401 None)))
              (set_localStorage (Some "tok1") blank_page) in
  token s' = JNull /\
  localStorage s' = None /\
  view s' = Some AuthView /\
  fetched s' = [list_request "tok1"] /\
  authMsg s' = EmptyString /\
  console s' = [] /\
  tasksList s' = [].
Proof.
  apply (startup_with_refused_token (set_localStorage (Some "tok1") blank_page)
           "tok1" (mkResponse 401 None)); [reflexivity | discriminate | reflexivity].
Defined.

(** ** What holds whatever the services answer *)

Lemma panels_logged_out : panels_on (JNull, None, false, true).
Proof. cbn. split; [reflexivity | intros H; contradiction]. Qed.

Lemma panels_tasks_shown (v : jsval) (stored : option string) :
  panels_on (v, stored, true, false).
Proof. cbn. split; reflexivity. Qed.

Lemma panels_ignore_token (v w : jsval) (stored : option string) (a t : bool) :
  panels_on (v, stored, a, t) -> panels_on (w, stored, a, t).
Proof. intros H. exact H. Qed.

Lemma loadTasks_panels (r : fetch_result) (s : state) :
  panels_consistent s -> panels_consistent (exec (loadTasks r) s).
Proof.
  unfold panels_consistent. intros H.
  destruct (loadTasks_session r s) as [E|E]; rewrite E.
  - exact H.
  - exact panels_logged_out.
Qed.

Lemma addTask_panels (r rl : fetch_result) (s : state) :
  panels_consistent s -> panels_consistent (exec (addTaskBtn_onclick r rl) s).
Proof.
  intros H. unfold exec.
  destruct (truthy (token s)) eqn:Ht;
    [|rewrite (addTask_without_token r rl s Ht); exact H].
  destruct (String.eqb_spec (task_title s) EmptyString) as [He|Hn];
    [rewrite (addTask_empty_title r rl s He); exact H|].
  rewrite (addTask_run r rl s Ht Hn).
  destruct (to_string (token s)) as [bearer|]; [|exact H].
  destruct r as [|resp]; [exact H|]. cbv zeta.
  destruct (status resp =? 201); [|exact H].
  apply loadTasks_panels. exact H.
Qed.

Lemma login_panels (r rl : fetch_result) (s : state) :
  panels_consistent s -> panels_consistent (exec (loginBtn_onclick r rl) s).
Proof.
  intros H. unfold exec. rewrite login_run. cbv zeta.
  destruct r as [|resp]; [exact H|].
  destruct (ok resp); [|exact H].
  destruct (json_body resp) as [data|]; [|exact H].
  destruct (get_prop data "access_token") as [v|]; [|exact H].
  destruct (to_string v) as [stored|].
  - apply loadTasks_panels. exact (panels_tasks_shown v (Some stored)).
  - exact (panels_ignore_token (token s) v _ _ _ H).
Qed.

Lemma initialisation_panels (rl : fetch_result) (s0 : state) :
  panels_consistent (exec (initialisation rl) s0).
Proof.
  unfold exec. rewrite initialisation_run.
  destruct (localStorage s0) as [t|]; [|exact panels_logged_out].
  destruct (String.eqb t EmptyString); [exact panels_logged_out|].
  apply loadTasks_panels.
  exact (panels_tasks_shown (JStr t) (localStorage s0)).
Qed.

Lemma run_panels (op : operation) (s : state) :
  panels_consistent s -> panels_consistent (run op s).
Proof.
  intros H. destruct op; cbn [run].
  - unfold panels_consistent. rewrite register_session. exact H.
  - apply login_panels. exact H.
  - exact panels_logged_out.
  - apply loadTasks_panels. exact H.
  - apply addTask_panels. exact H.
  - exact H.
  - exact H.
  - exact H.
Qed.

(** X10: on every page reached from a page load by any operations, whatever
    the services answer, exactly one of the two panels is visible, and
    storage holds an entry only while the tasks panel is the visible one:
    whenever the auth panel is shown the stored token is gone. *)
Theorem one_panel_and_no_stale_storage (s : state) :
  reachable any_operation s ->
  (view s = Some AuthView \/ view s = Some TasksView) /\
  (view s = Some AuthView -> localStorage s = None).
Proof.
  intros Hr.
  assert (H : panels_consistent s).
  { induction Hr as [rl s0 | op s _ IH _].
    - apply initialisation_panels.
    - apply run_panels. exact IH. }
  unfold panels_consistent, session_of, panels_on in H. unfold view.
  destruct H as [Ha Hs]. rewrite Ha.
  destruct (tasksSection_hidden s); cbn.
  - split; [left; reflexivity|]. intros _.
    destruct (localStorage s); [|reflexivity].
    assert (true = false) by (apply Hs; discriminate). discriminate.
  - split; [right; reflexivity | discriminate].
Qed.

Lemma one_panel_and_no_stale_storage_witness :
  let s := run (OpLogin (Resolved (mkResponse 200 (Some opaque_body))) Rejected)
             (run OpLogout
                (run (OpLogin (Resolved (mkResponse 200 (Some (JObj [])))) Rejected)
                   (exec (initialisation Rejected) empty_token_page))) in
  (view s = Some AuthView \/ view s = Some TasksView) /\
  (view s = Some AuthView -> localStorage s = None).
Proof.
  apply one_panel_and_no_stale_storage.
  apply reachable_step; [|exact I].
  apply reachable_step; [|exact I].
  apply reachable_step; [|exact I].
  apply reachable_start.
Defined.

(** LoadTasks changes the session only when it is answered by a 401. *)
Lemma loadTasks_session_or_401 (r : fetch_result) (s : state) :
  session_of (exec (loadTasks r) s) = session_of s \/ is_401 r = true.
Proof.
  destruct (is_401 r) eqn:Hr; [right; reflexivity|].
  left. apply loadTasks_session_unless_401. exact Hr.
Qed.

Lemma view_of_session (s s' : state) :
  session_of s' = session_of s -> view s' = view s.
Proof.
  unfold session_of, view. intros E. injection E as _ _ E3 E4.
  rewrite E3, E4. reflexivity.
Qed.

Lemma is_401_resolved (r : fetch_result) :
  is_401 r = true -> exists resp, r = Resolved resp /\ status resp = 401.
Proof.
  destruct r as [|resp]; cbn; [discriminate|].
  intros H. exists resp. split; [reflexivity|]. apply Z.eqb_eq. exact H.
Qed.

(** The operation left the panels as they were, so the view is the same. *)
Ltac view_unchanged Hs Hs' :=
  unfold view in Hs, Hs'; cbn in Hs'; congruence.

(** X11: the tasks panel gives way to the auth panel only through Logout or
    through a 401 answer to a list request: an operation that takes the page
    from TasksView to AuthView is Logout, or is a Login, LoadTasks or AddTask
    whose list request was answered by a 401. *)
Theorem tasks_to_auth_only_by_logout_or_401 (op : operation) (s : state) :
  view s = Some TasksView ->
  view (run op s) = Some AuthView ->
  op = OpLogout \/
  exists resp, load_outcome op = Some (Resolved resp) /\ status resp = 401.
Proof.
  intros Hs Hs'.
  assert (Hload : forall r s1,
            view s1 = Some TasksView ->
            view (exec (loadTasks r) s1) = Some AuthView ->
            exists resp, r = Resolved resp /\ status resp = 401).
  { intros r s1 H1 H2. destruct (loadTasks_session_or_401 r s1) as [E|E].
    - rewrite (view_of_session _ _ E) in H2. congruence.
    - exact (is_401_resolved r E). }
  destruct op; cbn [run load_outcome] in *.
  - rewrite (view_of_session _ _ (register_session r s)) in Hs'. congruence.
  - right. unfold exec in Hs'. rewrite login_run in Hs'. cbv zeta in Hs'.
    destruct r as [|resp]; [view_unchanged Hs Hs'|].
    destruct (ok resp); [|view_unchanged Hs Hs'].
    destruct (json_body resp) as [data|]; [|view_unchanged Hs Hs'].
    destruct (get_prop data "access_token") as [v|]; [|view_unchanged Hs Hs'].
    destruct (to_string v) as [stored|]; [|view_unchanged Hs Hs'].
    destruct (Hload rl
                (logged_in v stored
                   (sent (login_request (username s) (password s))
                      (set_authMsg EmptyString s)))
                eq_refl Hs') as [respl [E1 E2]].
    exists respl. split; [congruence | exact E2].
  - left. reflexivity.
  - right. destruct (Hload r s Hs Hs') as [resp [E1 E2]].
    exists resp. split; [congruence | exact E2].
  - right. unfold exec in Hs'.
    destruct (truthy (token s)) eqn:Ht;
      [|rewrite (addTask_without_token r rl s Ht) in Hs'; view_unchanged Hs Hs'].
    destruct (String.eqb_spec (task_title s) EmptyString) as [He|Hn];
      [rewrite (addTask_empty_title r rl s He) in Hs'; view_unchanged Hs Hs'|].
    rewrite (addTask_run r rl s Ht Hn) in Hs'.
    destruct (to_string (token s)) as [bearer|]; [|view_unchanged Hs Hs'].
    destruct r as [|resp]; [view_unchanged Hs Hs'|]. cbv zeta in Hs'.
    destruct (status resp =? 201); [|view_unchanged Hs Hs'].
    destruct (Hload rl
                (set_task_title EmptyString (sent (create_request bearer (task_title s)) s))
                Hs Hs') as [respl [E1 E2]].
    exists respl. split; [congruence | exact E2].
  - view_unchanged Hs Hs'.
  - view_unchanged Hs Hs'.
  - view_unchanged Hs Hs'.
Qed.

Lemma tasks_to_auth_only_by_logout_or_401_witness :
  OpAddTask (Resolved (mkResponse 201 None)) (Resolved (mkResponse 401 None)) = OpLogout \/
  exists resp,
    load_outcome (OpAddTask (Resolved (mkResponse 201 None))
                            (Resolved (mkResponse 401 None))) = Some (Resolved resp) /\
    status resp = 401.
Proof.
  apply (tasks_to_auth_only_by_logout_or_401
           (OpAddTask (Resolved (mkResponse 201 None)) (Resolved (mkResponse 401 None)))
           alice_page); reflexivity.
Defined.

(** X12: the auth panel gives way to the tasks panel only through a Login
    answered by a 2xx: no Register, Logout, LoadTasks or AddTask, and no
    refused or failed Login, takes the page from AuthView to TasksView. *)
Theorem auth_to_tasks_only_by_login (op : operation) (s : state) :
  view s = Some AuthView ->
  view (run op s) = Some TasksView ->
  exists resp rl, op = OpLogin (Resolved resp) rl /\ ok resp = true.
Proof.
  intros Hs Hs'.
  assert (Hload : forall r s1,
            view s1 = Some AuthView ->
            view (exec (loadTasks r) s1) = Some TasksView -> False).
  { intros r s1 H1 H2. destruct (loadTasks_session r s1) as [E|E].
    - rewrite (view_of_session _ _ E) in H2. congruence.
    - unfold view in H2. unfold session_of in E. injection E as _ _ E3 E4.
      rewrite E3, E4 in H2. discriminate. }
  destruct op; cbn [run] in *.
  - rewrite (view_of_session _ _ (register_session r s)) in Hs'. congruence.
  - destruct r as [|resp];
      [unfold exec in Hs'; rewrite login_run in Hs'; view_unchanged Hs Hs'|].
    destruct (ok resp) eqn:Hok.
    + exists resp, rl. split; [reflexivity | exact Hok].
    + unfold exec in Hs'. rewrite login_run in Hs'. cbv zeta in Hs'.
      rewrite Hok in Hs'. view_unchanged Hs Hs'.
  - cbn in Hs'. discriminate.
  - destruct (Hload r s Hs Hs').
  - exfalso. unfold exec in Hs'.
    destruct (truthy (token s)) eqn:Ht;
      [|rewrite (addTask_without_token r rl s Ht) in Hs'; view_unchanged Hs Hs'].
    destruct (String.eqb_spec (task_title s) EmptyString) as [He|Hn];
      [rewrite (addTask_empty_title r rl s He) in Hs'; view_unchanged Hs Hs'|].
    rewrite (addTask_run r rl s Ht Hn) in Hs'.
    destruct (to_string (token s)) as [bearer|]; [|view_unchanged Hs Hs'].
    destruct r as [|resp]; [view_unchanged Hs Hs'|]. cbv zeta in Hs'.
    destruct (status resp =? 201); [|view_unchanged Hs Hs'].
    exact (Hload rl
             (set_task_title EmptyString (sent (create_request bearer (task_title s)) s))
             Hs Hs').
  - view_unchanged Hs Hs'.
  - view_unchanged Hs Hs'.
  - view_unchanged Hs Hs'.
Qed.

Lemma auth_to_tasks_only_by_login_witness :
  exists resp rl,
    OpLogin (Resolved (mkResponse 200 (Some token_body))) Rejected =
      OpLogin (Resolved resp) rl /\
    ok resp = true.
Proof.
  apply (auth_to_tasks_only_by_login
           (OpLogin (Resolved (mkResponse 200 (Some token_body))) Rejected)
           alice_form); reflexivity.
Defined.

(** ** What is sent to the Tasks service *)

(** X13: LoadTasks sends nothing when the token is absent or cannot be
    written into the header; otherwise it sends one request and one only,
    the GET of the list with the token's text as bearer, whatever the
    answer. *)
Theorem loadTasks_requests (r : fetch_result) (s : state) :
  let s' := exec (loadTasks r) s in
  (truthy (token s) = false \/ to_string (token s) = None ->
   fetched s' = fetched s) /\
  (forall bearer,
     truthy (token s) = true ->
     to_string (token s) = Some bearer ->
     fetched s' = (fetched s ++ [list_request bearer])%list).
Proof.
  cbv zeta. split.
  - intros [H|H].
    + unfold exec. rewrite (loadTasks_without_token r s H). reflexivity.
    + unfold exec. rewrite (loadTasks_run r s (unconvertible_truthy _ H)), H.
      reflexivity.
  - intros bearer Ht Hb. exact (loadTasks_fetched r s bearer Ht Hb).
Qed.

Lemma loadTasks_requests_witness :
  fetched (exec (loadTasks Rejected) blank_page) = fetched blank_page /\
  fetched (exec (loadTasks (Resolved (mkResponse 500 None))) alice_page) =
    (fetched alice_page ++ [list_request "tok1"])%list.
Proof.
  split.
  - apply (proj1 (loadTasks_requests Rejected blank_page)). left. reflexivity.
  - apply (proj2 (loadTasks_requests (Resolved (mkResponse 500 None)) alice_page)
             "tok1"); reflexivity.
Defined.

(** X14: AddTask sends nothing when the token is absent, when the title is
    empty, or when the token cannot be written into the header.  Otherwise
    it posts the title as typed under the token's text as bearer, and asks
    for the list again, with the same bearer, exactly when the POST is
    answered by a 201; it sends nothing else. *)
Theorem addTask_requests (r rl : fetch_result) (s : state) :
  let s' := exec (addTaskBtn_onclick r rl) s in
  (truthy (token s) = false \/ task_title s = EmptyString \/
   to_string (token s) = None ->
   fetched s' = fetched s) /\
  (forall bearer,
     truthy (token s) = true ->
     task_title s <> EmptyString ->
     to_string (token s) = Some bearer ->
     fetched s' =
       (fetched s ++ create_request bearer (task_title s) ::
          (if is_201 r then [list_request bearer] else []))%list).
Proof.
  cbv zeta. split.
  - intros [H|[H|H]].
    + unfold exec. rewrite (addTask_without_token r rl s H). reflexivity.
    + unfold exec. rewrite (addTask_empty_title r rl s H). reflexivity.
    + destruct (String.eqb_spec (task_title s) EmptyString) as [He|Hn].
      * unfold exec. rewrite (addTask_empty_title r rl s He). reflexivity.
      * unfold exec.
        rewrite (addTask_run r rl s (unconvertible_truthy _ H) Hn), H.
        reflexivity.
  - intros bearer Ht Hn Hb. unfold exec.
    rewrite (addTask_run r rl s Ht Hn), Hb. cbv zeta.
    destruct r as [|resp]; [reflexivity|]. cbn [is_201].
    destruct (status resp =? 201); [|reflexivity].
    set (s2 := set_task_title EmptyString _).
    change (snd (loadTasks rl s2)) with (exec (loadTasks rl) s2).
    rewrite (loadTasks_fetched rl s2 bearer Ht Hb).
    cbn. rewrite <- app_assoc. reflexivity.
Qed.

Lemma addTask_requests_witness :
  fetched (exec (addTaskBtn_onclick Rejected Rejected)
             (set_task_title "Walk dog" blank_page)) = [] /\
  fetched (exec (addTaskBtn_onclick (Resolved (mkResponse 201 None)) Rejected)
             alice_page) =
    [create_request "tok1" "Walk dog"; list_request "tok1"] /\
  fetched (exec (addTaskBtn_onclick (Resolved (mkResponse 200 None)) Rejected)
             alice_page) =
    [create_request "tok1" "Walk dog"].
Proof.
  split; [|split].
  - apply (proj1 (addTask_requests Rejected Rejected
                    (set_task_title "Walk dog" blank_page))).
    left. reflexivity.
  - apply (proj2 (addTask_requests (Resolved (mkResponse 201 None)) Rejected
                    alice_page) "tok1"); [reflexivity | discriminate | reflexivity].
  - apply (proj2 (addTask_requests (Resolved (mkResponse 200 None)) Rejected
                    alice_page) "tok1"); [reflexivity | discriminate | reflexivity].
Defined.

(** ** Rendering *)

Lemma get_prop_none (v : jsval) (k : string) :
  get_prop v k = None <-> v = JUndefined \/ v = JNull.
Proof.
  split.
  - destruct v as [| | | | | |props]; cbn; try discriminate; auto.
    destruct (own_prop k props); discriminate.
  - intros [E|E]; rewrite E; reflexivity.
Qed.

(** X15: building the list item of a task throws exactly when the task is
    [null] or [undefined], or when its title cannot be converted to text;
    the value of [completed] never makes it throw.  When it throws, the
    list is left as it was. *)
Theorem append_task_throws_iff (task : jsval) (s : state) :
  (append_task task s = (Throw TypeError, s) <->
   task = JUndefined \/ task = JNull \/
   exists t, get_prop task "title" = Some t /\ to_string t = None) /\
  (forall e s', append_task task s = (Throw e, s') -> s' = s).
Proof.
  rewrite append_task_run. unfold task_text. split.
  - split.
    + intros H.
      destruct (get_prop task "title") as [t|] eqn:Et.
      * right. right. exists t. split; [reflexivity|].
        destruct (get_prop task "completed") as [c|] eqn:Ec.
        -- destruct (to_string t); [discriminate | reflexivity].
        -- apply get_prop_none in Ec. apply (get_prop_none task "title") in Ec.
           congruence.
      * apply get_prop_none in Et. destruct Et; auto.
    + intros [E|[E|[t [Et Hc]]]].
      * rewrite E. reflexivity.
      * rewrite E. reflexivity.
      * rewrite Et, Hc. destruct (get_prop task "completed"); reflexivity.
  - intros e s' H.
    destruct (get_prop task "title") as [t|]; [|congruence].
    destruct (get_prop task "completed") as [c|]; [|congruence].
    destruct (to_string t); [discriminate | congruence].
Qed.

Lemma append_task_throws_iff_witness :
  append_task JNull alice_page = (Throw TypeError, alice_page) /\
  append_task (JObj [("title", opaque_token)]) alice_page =
    (Throw TypeError, alice_page).
Proof.
  split.
  - apply (proj1 (append_task_throws_iff JNull alice_page)).
    right. left. reflexivity.
  - apply (proj1 (append_task_throws_iff (JObj [("title", opaque_token)]) alice_page)).
    right. right. exists opaque_token. split; reflexivity.
Defined.

Lemma rendered_until (good rest : list jsval) (bad : jsval) (texts : list string) :
  Forall2 (fun v text => task_text v = Some text) good texts ->
  task_text bad = None ->
  rendered (good ++ bad :: rest) = (texts, Some TypeError).
Proof.
  intros Hg Hb. induction Hg as [|v text good texts Hv _ IH]; cbn.
  - rewrite Hb. reflexivity.
  - rewrite Hv, IH. reflexivity.
Qed.

(** X16: rendering is not atomic.  When an item of the array cannot be
    rendered, the tasks before it are displayed, the failing one and those
    after it are not, and the TypeError is logged. *)
Theorem loadTasks_partial_render (s : state) (bearer : string) (resp : response)
    (good rest : list jsval) (bad : jsval) (texts : list string) :
  truthy (token s) = true ->
  to_string (token s) = Some bearer ->
  status resp <> 401 ->
  json_body resp = Some (JArr (good ++ bad :: rest)) ->
  Forall2 (fun v text => task_text v = Some text) good texts ->
  task_text bad = None ->
  let s' := exec (loadTasks (Resolved resp)) s in
  tasksList s' = texts /\
  console s' = (console s ++ [(load_error, Some TypeError)])%list /\
  session_of s' = session_of s.
Proof.
  intros Ht Hb Hs Hj Hg Hbad. apply Z.eqb_neq in Hs. unfold exec.
  rewrite (loadTasks_run _ s Ht), Hb. cbn [snd]. cbv zeta. rewrite Hs, Hj.
  unfold after_render. rewrite (rendered_until good rest bad texts Hg Hbad).
  cbn. repeat split.
Qed.

Lemma loadTasks_partial_render_witness :
  let dog := JObj [("title", JStr "Walk dog"); ("completed", JBool true)] in
  let s' := exec (loadTasks (Resolved (mkResponse 200
                                (Some (JArr ([milk] ++ JNull :: [dog]))))))
              alice_page in
  tasksList s' = ["Buy milk"] /\
  console s' = (console alice_page ++ [(load_error, Some TypeError)])%list /\
  session_of s' = session_of alice_page.
Proof.
  apply (loadTasks_partial_render alice_page "tok1"
           (mkResponse 200 (Some (JArr ([milk] ++ JNull ::
              [JObj [("title", JStr "Walk dog"); ("completed", JBool true)]]))))
           [milk] [JObj [("title", JStr "Walk dog"); ("completed", JBool true)]]
           JNull ["Buy milk"]);
    try reflexivity; try discriminate.
  repeat constructor.
Defined.

Lemma after_render_list (tasks : jsval) (s1 s2 : state) :
  tasksList (after_render tasks s1) = tasksList (after_render tasks s2).
Proof.
  destruct tasks; try reflexivity.
  cbn [after_render]. destruct (snd (rendered items)); reflexivity.
Qed.

Lemma after_render_token (tasks : jsval) (s : state) :
  token (after_render tasks s) = token s.
Proof.
  destruct tasks; try reflexivity.
  cbn [after_render]. destruct (snd (rendered items)); reflexivity.
Qed.

(** X17: once the body of a response has been parsed, the list displayed is
    decided by the body alone: two pages with usable tokens that receive
    the same answer display the same list, whatever each displayed before
    and whether or not rendering runs to the end. *)
Theorem loadTasks_list_from_body (s1 s2 : state) (b1 b2 : string)
    (resp : response) (tasks : jsval) :
  truthy (token s1) = true -> to_string (token s1) = Some b1 ->
  truthy (token s2) = true -> to_string (token s2) = Some b2 ->
  status resp <> 401 ->
  json_body resp = Some tasks ->
  tasksList (exec (loadTasks (Resolved resp)) s1) =
  tasksList (exec (loadTasks (Resolved resp)) s2).
Proof.
  intros Ht1 Hb1 Ht2 Hb2 Hs Hj. apply Z.eqb_neq in Hs. unfold exec.
  rewrite (loadTasks_run _ s1 Ht1), (loadTasks_run _ s2 Ht2), Hb1, Hb2.
  cbn [snd]. cbv zeta. rewrite Hs, Hj. apply after_render_list.
Qed.

Lemma loadTasks_list_from_body_witness :
  tasksList (exec (loadTasks (Resolved (mkResponse 200 (Some (JArr two_tasks)))))
               alice_page) =
  tasksList (exec (loadTasks (Resolved (mkResponse 200 (Some (JArr two_tasks)))))
               (set_tasksList ["a"; "b"; "c"] (set_token (JNum "7") alice_page))).
Proof.
  apply (loadTasks_list_from_body alice_page
           (set_tasksList ["a"; "b"; "c"] (set_token (JNum "7") alice_page))
           "tok1" "7" (mkResponse 200 (Some (JArr two_tasks))) (JArr two_tasks));
    try reflexivity.
  discriminate.
Defined.

(** X18: loading twice with the same outcome displays what loading once
    displays, and leaves the same session: items are never accumulated. *)
Theorem loadTasks_twice (r : fetch_result) (s : state) :
  let once := exec (loadTasks r) s in
  let twice := exec (loadTasks r) once in
  tasksList twice = tasksList once /\ session_of twice = session_of once.
Proof.
  cbv zeta. unfold exec. destruct (truthy (token s)) eqn:Ht.
  - rewrite (loadTasks_run r s Ht). cbn [snd].
    destruct (to_string (token s)) as [bearer|] eqn:Hb.
    + cbv zeta. destruct r as [|resp].
      * rewrite loadTasks_run; [|exact Ht]. cbn [snd token logged sent set_console
          set_fetched]. rewrite Hb. split; reflexivity.
      * destruct (status resp =? 401) eqn:Hs.
        -- rewrite loadTasks_without_token; [|reflexivity]. split; reflexivity.
        -- destruct (json_body resp) as [tasks|] eqn:Hj.
           ++ rewrite loadTasks_run; [|rewrite after_render_token; exact Ht].
              cbn [snd]. rewrite after_render_token.
              cbn [token sent set_fetched]. rewrite Hb. cbv zeta. rewrite Hs, Hj.
              split; [apply after_render_list|].
              destruct tasks; try reflexivity.
              cbn [after_render]. destruct (snd (rendered items)); reflexivity.
           ++ rewrite loadTasks_run; [|exact Ht]. cbn [snd token logged sent
                set_console set_fetched]. rewrite Hb. cbv zeta. rewrite Hs, Hj.
              split; reflexivity.
    + rewrite loadTasks_run; [|exact Ht]. cbn [snd token logged set_console].
      rewrite Hb. split; reflexivity.
  - rewrite (loadTasks_without_token r s Ht). cbn [snd].
    rewrite (loadTasks_without_token r s Ht). split; reflexivity.
Qed.

(** ** Operations in sequence *)

Lemma loadTasks_tasks_run (s : state) (bearer : string) (resp : response)
    (items : list jsval) (tasks : list Task) :
  truthy (token s) = true ->
  to_string (token s) = Some bearer ->
  status resp <> 401 ->
  json_body resp = Some (JArr items) ->
  Forall2 is_task items tasks ->
  loadTasks (Resolved resp) s =
  (Ok tt, set_tasksList (map display tasks) (sent (list_request bearer) s)).
Proof.
  intros Ht Hb Hs Hj Hi. apply Z.eqb_neq in Hs.
  rewrite (loadTasks_run _ s Ht), Hb. cbv zeta. rewrite Hs, Hj.
  unfold after_render. rewrite (rendered_display items tasks Hi). reflexivity.
Qed.

(** X19: a task added with success is followed by a refresh.  With a usable
    token and a non-empty title, a 201 followed by a list answer carrying an
    array of tasks leaves the title input empty and the list showing those
    tasks in their order; two requests were sent, the session is as before
    and nothing is logged. *)
Theorem addTask_then_refresh (s : state) (bearer : string) (resp respl : response)
    (items : list jsval) (tasks : list Task) :
  truthy (token s) = true ->
  to_string (token s) = Some bearer ->
  task_title s <> EmptyString ->
  status resp = 201 ->
  status respl <> 401 ->
  json_body respl = Some (JArr items) ->
  Forall2 is_task items tasks ->
  let s' := exec (addTaskBtn_onclick (Resolved resp) (Resolved respl)) s in
  task_title s' = EmptyString /\
  tasksList s' = map display tasks /\
  fetched s' = (fetched s ++ [create_request bearer (task_title s);
                              list_request bearer])%list /\
  session_of s' = session_of s /\
  console s' = console s /\
  authMsg s' = authMsg s.
Proof.
  intros Ht Hb Hn Hs Hsl Hj Hi. unfold exec.
  rewrite (addTask_run _ _ s Ht Hn), Hb. cbv zeta. rewrite Hs. cbn [Z.eqb Pos.eqb].
  rewrite (loadTasks_tasks_run
             (set_task_title EmptyString (sent (create_request bearer (task_title s)) s))
             bearer respl items tasks Ht Hb Hsl Hj Hi).
  cbn. rewrite <- app_assoc. repeat split.
Qed.

Lemma addTask_then_refresh_witness :
  let s' := exec (addTaskBtn_onclick (Resolved (mkResponse 201 None))
                    (Resolved (mkResponse 200 (Some (JArr two_tasks)))))
              alice_page in
  task_title s' = EmptyString /\
  tasksList s' = ["Buy milk"; "Walk dog (Terminée)"] /\
  fetched s' = (fetched alice_page ++ [create_request "tok1" "Walk dog";
                                       list_request "tok1"])%list /\
  session_of s' = session_of alice_page /\
  console s' = console alice_page /\
  authMsg s' = authMsg alice_page.
Proof.
  apply (addTask_then_refresh alice_page "tok1" (mkResponse 201 None)
           (mkResponse 200 (Some (JArr two_tasks))) two_tasks
           [mkTask "Buy milk" false; mkTask "Walk dog" true]);
    try reflexivity; try discriminate.
  repeat constructor.
Defined.

(** X20: a login followed by its list.  A 2xx answer carrying a non-empty
    string as access token, followed by a list answer carrying an array of
    tasks, leaves that string as the token in memory and in storage, the
    tasks panel shown with those tasks in their order, and the message
    empty. *)
Theorem login_then_load (s : state) (resp respl : response) (data : jsval)
    (t : string) (items : list jsval) (tasks : list Task) :
  ok resp = true ->
  json_body resp = Some data ->
  get_prop data "access_token" = Some (JStr t) ->
  t <> EmptyString ->
  status respl <> 401 ->
  json_body respl = Some (JArr items) ->
  Forall2 is_task items tasks ->
  let s' := exec (loginBtn_onclick (Resolved resp) (Resolved respl)) s in
  token s' = JStr t /\
  localStorage s' = Some t /\
  view s' = Some TasksView /\
  tasksList s' = map display tasks /\
  authMsg s' = EmptyString /\
  console s' = console s /\
  fetched s' = (fetched s ++ [login_request (username s) (password s);
                              list_request t])%list.
Proof.
  intros Hok Hj Hp Hn Hsl Hjl Hi. unfold exec.
  rewrite (login_accepted_run _ s resp data (JStr t) t Hok Hj Hp eq_refl).
  rewrite (loadTasks_tasks_run
             (logged_in (JStr t) t
                (sent (login_request (username s) (password s))
                   (set_authMsg EmptyString s)))
             t respl items tasks (truthy_title t Hn) eq_refl Hsl Hjl Hi).
  cbn. rewrite <- app_assoc. repeat split.
Qed.

Lemma login_then_load_witness :
  let s' := exec (loginBtn_onclick (Resolved (mkResponse 200 (Some token_body)))
                    (Resolved (mkResponse 200 (Some (JArr two_tasks)))))
              alice_form in
  token s' = JStr "tok1" /\
  localStorage s' = Some "tok1" /\
  view s' = Some TasksView /\
  tasksList s' = ["Buy milk"; "Walk dog (Terminée)"] /\
  authMsg s' = EmptyString /\
  console s' = console alice_form /\
  fetched s' = (fetched alice_form ++ [login_request "alice" "x";
                                       list_request "tok1"])%list.
Proof.
  apply (login_then_load alice_form (mkResponse 200 (Some token_body))
           (mkResponse 200 (Some (JArr two_tasks))) token_body "tok1" two_tasks
           [mkTask "Buy milk" false; mkTask "Walk dog" true]);
    try reflexivity; try discriminate.
  repeat constructor.
Defined.

(** X21: no handler writes to the credential inputs: after Register, Login,
    Logout, LoadTasks or AddTask, successful or not, the user name and the
    password are still in their fields; and the title input is changed by
    AddTask alone, which empties it. *)
Theorem handlers_keep_inputs (op : operation) (s : state) :
  (username (run op s) = username s \/ exists u, op = OpTypeUsername u) /\
  (password (run op s) = password s \/ exists p, op = OpTypePassword p) /\
  (task_title (run op s) = task_title s \/
   (exists t, op = OpTypeTitle t) \/
   (exists r rl, op = OpAddTask r rl) /\ task_title (run op s) = EmptyString).
Proof.
  destruct op; cbn [run].
  - unfold exec. rewrite register_run. cbn [snd]. cbv zeta.
    destruct r as [|resp]; [cbn; auto|].
    destruct (status resp =? 201); [cbn; auto|].
    destruct (json_body resp) as [data|]; [|cbn; auto].
    destruct (get_prop data "detail") as [detail|]; [|cbn; auto].
    destruct (to_string detail); cbn; auto.
  - unfold exec. rewrite login_run. cbv zeta.
    destruct r as [|resp]; [cbn; auto|].
    destruct (ok resp); [|cbn; auto].
    destruct (json_body resp) as [data|]; [|cbn; auto].
    destruct (get_prop data "access_token") as [v|]; [|cbn; auto].
    destruct (to_string v) as [stored|]; [|cbn; auto].
    destruct (loadTasks_frame rl
                (logged_in v stored
                   (sent (login_request (username s) (password s))
                      (set_authMsg EmptyString s))))
      as (_ & Hu & Hp & Ht).
    unfold exec in Hu, Hp, Ht. rewrite Hu, Hp, Ht. cbn. auto.
  - cbn. auto.
  - destruct (loadTasks_frame r s) as (_ & Hu & Hp & Ht).
    rewrite Hu, Hp, Ht. auto.
  - unfold exec.
    destruct (truthy (token s)) eqn:Htok;
      [|rewrite (addTask_without_token r rl s Htok); cbn; auto].
    destruct (String.eqb_spec (task_title s) EmptyString) as [He|Hn];
      [rewrite (addTask_empty_title r rl s He); cbn; auto|].
    rewrite (addTask_run r rl s Htok Hn).
    destruct (to_string (token s)) as [bearer|]; [|cbn; auto].
    destruct r as [|resp]; [cbn; auto|]. cbv zeta.
    destruct (status resp =? 201); [|cbn; auto].
    destruct (loadTasks_frame rl
                (set_task_title EmptyString
                   (sent (create_request bearer (task_title s)) s)))
      as (_ & Hu & Hp & Ht).
    unfold exec in Hu, Hp, Ht. rewrite Hu, Hp, Ht. cbn.
    split; [auto|]. split; [auto|]. right. right. split; [eauto | reflexivity].
  - cbn. intuition eauto.
  - cbn. intuition eauto.
  - cbn. intuition eauto.
Qed.
